(** * Duramotion catalogue scraper: a shallow embedding of [1.py]

    The program is a linear pipeline: [fetch_sitemap_urls] harvests the
    product URLs of one sitemap, [extract_product_data] scrapes one page
    (following its English alternate when there is one), and [main] runs
    the extractions on a thread pool and writes the records to a
    spreadsheet.

    The embedding keeps the shape of the source.  Python exceptions and
    [print] are threaded through a small monad [M]; the network is a
    function from URLs to responses (the [session]); a response carries
    the tree that [BeautifulSoup(..., 'html.parser')] builds from its
    body.  Library functions the program calls and whose result only
    matters as a value ([json.loads], [urljoin]) are section variables;
    the spreadsheet library is a record of the operations [main] calls,
    each of which returns or raises; the two sources of non-determinism
    (the iteration order of a Python [set], the completion order of the
    thread pool) are section variables too, constrained by what Python
    guarantees about them.

    Python [str] values are modelled by [string]; a character stands for
    a code point below 256. *)

From Stdlib Require Import ZArith Ascii String List Bool Lia Permutation.
From stdpp Require Import base option list gmap strings pretty.

Set Warnings "-register-all".

Open Scope string_scope.
Open Scope list_scope.
Open Scope nat_scope.

(* ===================================================================== *)
(** ** Python strings *)
(* ===================================================================== *)

(** [ord(c)] *)
Definition ord (c : ascii) : nat := nat_of_ascii c.

Definition chr_eqb (a b : ascii) : bool := Ascii.eqb a b.

(** [c in chars] for a single character. *)
Fixpoint char_in (c : ascii) (chars : string) : bool :=
  match chars with
  | EmptyString => false
  | String d rest => chr_eqb c d || char_in c rest
  end.

(** [str.isspace] for one character (code points below 256). *)
Definition py_isspace (c : ascii) : bool :=
  let n := ord c in
  ((9 <=? n) && (n <=? 13)) || ((28 <=? n) && (n <=? 32))
  || (n =? 133) || (n =? 160).

(** [str.lower] for one character: ASCII capitals and the capitals of
    the Latin-1 supplement (U+00C0 to U+00DE, except the sign U+00D7). *)
Definition lower_char (c : ascii) : ascii :=
  let n := ord c in
  if ((65 <=? n) && (n <=? 90))
     || ((192 <=? n) && (n <=? 222) && negb (n =? 215))
  then ascii_of_nat (n + 32) else c.

Fixpoint py_lower (s : string) : string :=
  match s with
  | EmptyString => EmptyString
  | String c rest => String (lower_char c) (py_lower rest)
  end.

(** [s.startswith(p)] *)
Fixpoint startswith (p s : string) : bool :=
  match p, s with
  | EmptyString, _ => true
  | String a p', String b s' => chr_eqb a b && startswith p' s'
  | String _ _, EmptyString => false
  end.

(** [needle in hay] on strings: substring test. *)
Fixpoint str_in (needle hay : string) : bool :=
  startswith needle hay ||
  match hay with
  | EmptyString => false
  | String _ rest => str_in needle rest
  end.

(** [s.lstrip(chars)], [s.rstrip(chars)], [s.strip(chars)] with the set
    of characters given as a predicate. *)
Fixpoint lstrip (p : ascii -> bool) (s : string) : string :=
  match s with
  | EmptyString => EmptyString
  | String c rest => if p c then lstrip p rest else s
  end.

Fixpoint rstrip (p : ascii -> bool) (s : string) : string :=
  match s with
  | EmptyString => EmptyString
  | String c rest =>
      match rstrip p rest with
      | EmptyString => if p c then EmptyString else String c EmptyString
      | r => String c r
      end
  end.

Definition strip (p : ascii -> bool) (s : string) : string :=
  rstrip p (lstrip p s).

(** [s.strip('/')] and [s.strip()] *)
Definition strip_slash (s : string) : string := strip (chr_eqb "/") s.
Definition py_strip (s : string) : string := strip py_isspace s.

(** [s.split(sep)] for a one-character separator: every occurrence of
    the separator ends a field, so the result has one more field than
    there are separators. *)
Fixpoint split_char (sep : ascii) (s : string) : list string :=
  match s with
  | EmptyString => [EmptyString]
  | String c rest =>
      if chr_eqb c sep then EmptyString :: split_char sep rest
      else match split_char sep rest with
           | [] => [String c EmptyString]
           | f :: fs => String c f :: fs
           end
  end.

(** The text before the first character of [s] that satisfies [p], and
    what follows that character ([None] when there is none):
    [s.partition(c)] when [p] recognises one character. *)
Fixpoint partition_at (p : ascii -> bool) (s : string)
  : string * option string :=
  match s with
  | EmptyString => (EmptyString, None)
  | String c rest =>
      if p c then (EmptyString, Some rest)
      else let '(before, after) := partition_at p rest in
           (String c before, after)
  end.

(** The text before the first character satisfying [p] and the text from
    that character on: [s[:i], s[i:]] for the first such index [i]
    (the length of [s] when there is none). *)
Fixpoint span_until (p : ascii -> bool) (s : string) : string * string :=
  match s with
  | EmptyString => (EmptyString, EmptyString)
  | String c rest =>
      if p c then (EmptyString, s)
      else let '(before, after) := span_until p rest in
           (String c before, after)
  end.

(** [s.replace(c, "")] for every character [c] satisfying [p]. *)
Fixpoint remove_chars (p : ascii -> bool) (s : string) : string :=
  match s with
  | EmptyString => EmptyString
  | String c rest =>
      if p c then remove_chars p rest else String c (remove_chars p rest)
  end.

Fixpoint str_forall (p : ascii -> bool) (s : string) : bool :=
  match s with
  | EmptyString => true
  | String c rest => p c && str_forall p rest
  end.

Definition is_empty (s : string) : bool :=
  match s with EmptyString => true | _ => false end.

(** Truthiness of a string: [if s]. *)
Definition truthy (s : string) : bool := negb (is_empty s).

(** [x in xs] for a list of strings. *)
Definition str_in_list (x : string) (xs : list string) : bool :=
  existsb (String.eqb x) xs.

(** [sep.join(xs)] *)
Fixpoint join (sep : string) (xs : list string) : string :=
  match xs with
  | [] => EmptyString
  | [x] => x
  | x :: rest => x +:+ sep +:+ join sep rest
  end.

(** The last element of a list of strings, the empty string for the
    empty list. *)
Definition last_item (xs : list string) : string := List.last xs EmptyString.

(** [xs[i]], with the empty string out of range. *)
Definition item (i : nat) (xs : list string) : string :=
  List.nth i xs EmptyString.

(** f-string rendering of an integer. *)
Definition str_of_nat (n : nat) : string := pretty (N.of_nat n).
Definition str_of_Z (z : Z) : string := pretty z.

(* ===================================================================== *)
(** ** Exceptions and console output *)
(* ===================================================================== *)

(** Every exception the modelled code can meet derives from Python's
    [Exception]; [str(e)] is all the program ever uses of one. *)
Inductive exn : Type := Exception (msg : string).

Definition exn_msg (e : exn) : string := match e with Exception m => m end.

(** A computation that returns or raises. *)
Inductive outcome (A : Type) : Type :=
| Ok (a : A)
| Raise (e : exn).
Arguments Ok {A} a.
Arguments Raise {A} e.

#[global] Instance outcome_ret : MRet outcome := fun A a => Ok a.
#[global] Instance outcome_bind : MBind outcome := fun A B f m =>
  match m with
  | Ok a => f a
  | Raise e => Raise e
  end.
#[global] Instance outcome_fmap : FMap outcome := fun A B f m =>
  match m with
  | Ok a => Ok (f a)
  | Raise e => Raise e
  end.

(** A computation that prints lines to the console and then returns or
    raises. *)
Record M (A : Type) : Type := Run { console : list string; result : outcome A }.
Arguments Run {A} console result.
Arguments console {A} m.
Arguments result {A} m.

#[global] Instance M_ret : MRet M := fun A a => Run [] (Ok a).
#[global] Instance M_bind : MBind M := fun A B f m =>
  match result m with
  | Ok a => let k := f a in Run (console m ++ console k) (result k)
  | Raise e => Run (console m) (Raise e)
  end.

Definition print (line : string) : M unit := Run [line] (Ok tt).
Definition raise {A} (e : exn) : M A := Run [] (Raise e).
Definition lift {A} (o : outcome A) : M A := Run [] o.

(** [try: body  except Exception as e: handler e] *)
Definition try_except {A} (body : M A) (handler : exn -> M A) : M A :=
  match result body with
  | Ok a => body
  | Raise e => let h := handler e in Run (console body ++ console h) (result h)
  end.

(** [for x in xs: body x] *)
Fixpoint for_each {A} (xs : list A) (body : A -> M unit) : M unit :=
  match xs with
  | [] => mret tt
  | x :: rest => body x ;; for_each rest body
  end.

(** [xs[i]] and [xs[-1]]: [IndexError] out of range. *)
Definition getitem {A} (xs : list A) (i : nat) : outcome A :=
  match xs !! i with
  | Some x => Ok x
  | None => Raise (Exception "list index out of range")
  end.

Definition getitem_last {A} (xs : list A) : outcome A :=
  match xs with
  | [] => Raise (Exception "list index out of range")
  | x :: rest => Ok (List.last rest x)
  end.

(* ===================================================================== *)
(** ** urllib.parse.urlparse(url).path *)
(* ===================================================================== *)

(** The path component as CPython's [urlsplit] followed by [urlparse]
    computes it: leading control characters and spaces are dropped, tab,
    CR and LF are removed, a scheme is split off at the first colon when
    what precedes it is a well-formed scheme, a network location follows
    a leading double slash up to the next slash, question mark or hash,
    the fragment and the query are cut off, and for the schemes that
    take parameters the parameters of the last segment are cut off.
    A network location with an unmatched square bracket raises
    [ValueError], and so does one with brackets whose host is not an
    IPv6 or IPvFuture literal in brackets, as [ipaddress.ip_address]
    and [_check_bracketed_netloc] decide it.  (The check of the network
    location under NFKC normalisation never raises on code points below
    256.) *)

Definition is_C0_or_space (c : ascii) : bool := ord c <=? 32.

(** Tab, carriage return and line feed. *)
Definition is_unsafe_byte (c : ascii) : bool :=
  char_in c (String "009" (String "013" (String "010" EmptyString))).

Definition is_ascii_alpha (c : ascii) : bool :=
  let n := ord c in
  ((65 <=? n) && (n <=? 90)) || ((97 <=? n) && (n <=? 122)).

Definition is_scheme_char (c : ascii) : bool :=
  let n := ord c in
  is_ascii_alpha c || ((48 <=? n) && (n <=? 57)) || char_in c "+-.".

Definition uses_params : list string :=
  [EmptyString; "ftp"; "hdl"; "prospero"; "http"; "imap"; "https"; "shttp";
   "rtsp"; "rtspu"; "sip"; "sips"; "mms"; "sftp"; "tel"].

Definition first_is (p : ascii -> bool) (s : string) : bool :=
  match s with
  | EmptyString => false
  | String c _ => p c
  end.

Definition split_scheme (url : string) : string * string :=
  match partition_at (chr_eqb ":") url with
  | (before, Some after) =>
      if truthy before && first_is is_ascii_alpha url
         && str_forall is_scheme_char before
      then (py_lower before, after)
      else (EmptyString, url)
  | (_, None) => (EmptyString, url)
  end.

Definition drop2 (s : string) : string :=
  match s with
  | String _ (String _ rest) => rest
  | _ => EmptyString
  end.

Definition is_ascii_digit (c : ascii) : bool :=
  let n := ord c in (48 <=? n) && (n <=? 57).

Definition is_hex_digit (c : ascii) : bool :=
  let n := ord c in
  is_ascii_digit c || ((65 <=? n) && (n <=? 70)) || ((97 <=? n) && (n <=? 102)).

(** [int(s)] for a string of decimal digits. *)
Fixpoint decimal_value (acc : nat) (s : string) : nat :=
  match s with
  | EmptyString => acc
  | String c rest => decimal_value (10 * acc + (ord c - 48)) rest
  end.

(** [IPv4Address._parse_octet] does not raise. *)
Definition valid_octet (octet_str : string) : bool :=
  if negb (truthy octet_str) then false
  else if negb (str_forall is_ascii_digit octet_str) then false
  else if 3 <? String.length octet_str then false
  else if negb (String.eqb octet_str "0") && first_is (chr_eqb "0") octet_str
  then false
  else decimal_value 0 octet_str <=? 255.

(** [IPv4Address(s)] does not raise. *)
Definition valid_ipv4 (addr_str : string) : bool :=
  negb (char_in "/" addr_str)
  && truthy addr_str
  && (let octets := split_char "." addr_str in
      (length octets =? 4) && forallb valid_octet octets).

(** [IPv6Address._parse_hextet] does not raise. *)
Definition valid_hextet (hextet_str : string) : bool :=
  str_forall is_hex_digit hextet_str
  && (String.length hextet_str <=? 4)
  && truthy hextet_str.

(** The second half of [IPv6Address._ip_int_from_string]: the place of
    the double colon and the hextets around it. *)
Definition valid_hextets (parts : list string) : bool :=
  let skips :=
    List.filter (fun i => is_empty (item i parts))
                (seq 1 (length parts - 2)) in
  match skips with
  | _ :: _ :: _ => false
  | [skip_index] =>
      let parts_hi := skip_index in
      let parts_lo := length parts - skip_index - 1 in
      let lead := is_empty (item 0 parts) in
      let trail := is_empty (last_item parts) in
      let parts_hi := if lead then parts_hi - 1 else parts_hi in
      let parts_lo := if trail then parts_lo - 1 else parts_lo in
      (if lead then parts_hi =? 0 else true)
      && (if trail then parts_lo =? 0 else true)
      && (parts_hi + parts_lo <=? 7)
      && forallb valid_hextet (take parts_hi parts)
      && forallb valid_hextet (drop (length parts - parts_lo) parts)
  | [] =>
      (length parts =? 8)
      && negb (is_empty (item 0 parts))
      && negb (is_empty (last_item parts))
      && forallb valid_hextet parts
  end.

(** [IPv6Address._ip_int_from_string] does not raise. *)
Definition valid_ipv6_address (ip_str : string) : bool :=
  truthy ip_str
  && (let parts := split_char ":" ip_str in
      (3 <=? length parts)
      && (if char_in "." (last_item parts) then
            valid_ipv4 (last_item parts)
            && (let parts := removelast parts ++ ["0"; "0"] in
                (length parts <=? 9) && valid_hextets parts)
          else (length parts <=? 9) && valid_hextets parts)).

(** [IPv6Address(s)] does not raise: no slash, a scope id that is
    neither empty nor contains a percent sign, and a valid address
    before it. *)
Definition valid_ipv6 (addr_str : string) : bool :=
  negb (char_in "/" addr_str)
  && match partition_at (chr_eqb "%") addr_str with
     | (addr, Some scope_id) =>
         truthy scope_id && negb (char_in "%" scope_id)
         && valid_ipv6_address addr
     | (addr, None) => valid_ipv6_address addr
     end.

(** The host matches [\Av[a-fA-F0-9]+\..+\Z]. *)
Definition valid_ipvfuture (hostname : string) : bool :=
  match hostname with
  | String "v" rest =>
      let '(version, after) := span_until (fun c => negb (is_hex_digit c)) rest in
      truthy version
      && match after with
         | String "." more => truthy more && negb (char_in "010" more)
         | _ => false
         end
  | _ => false
  end.

(** [repr(s)]: the quote is the apostrophe unless [s] has apostrophes
    and no double quote; backslash and the quote are escaped, tab, line
    feed and carriage return are written as escapes, and every other
    character that is not printable as a two-digit hexadecimal
    escape. *)
Definition hex_char (n : nat) : ascii :=
  if n <? 10 then ascii_of_nat (48 + n) else ascii_of_nat (87 + n).

Definition is_printable (c : ascii) : bool :=
  let n := ord c in
  ((32 <=? n) && (n <? 127)) || ((161 <=? n) && negb (n =? 173)).

Fixpoint repr_body (quote : ascii) (s : string) : string :=
  match s with
  | EmptyString => EmptyString
  | String c rest =>
      let tail := repr_body quote rest in
      if chr_eqb c quote || chr_eqb c "\" then String "\" (String c tail)
      else if chr_eqb c "009" then String "\" (String "t" tail)
      else if chr_eqb c "010" then String "\" (String "n" tail)
      else if chr_eqb c "013" then String "\" (String "r" tail)
      else if is_printable c then String c tail
      else String "\" (String "x" (String (hex_char (ord c / 16))
                                    (String (hex_char (ord c mod 16)) tail)))
  end.

Definition py_repr (s : string) : string :=
  let quote : ascii :=
    if char_in "'" s && negb (char_in "034" s) then "034"%char else "'"%char in
  String quote (repr_body quote s) +:+ String quote EmptyString.

(** [_check_bracketed_host]: [ip_address] tries IPv4 first, and an IPv4
    address in brackets is refused. *)
Definition check_bracketed_host (hostname : string) : outcome unit :=
  if startswith "v" hostname then
    if valid_ipvfuture hostname then Ok tt
    else Raise (Exception "IPvFuture address is invalid")
  else if valid_ipv4 hostname then
    Raise (Exception "An IPv4 address cannot be in brackets")
  else if valid_ipv6 hostname then Ok tt
  else Raise (Exception (py_repr hostname +:+
                         " does not appear to be an IPv4 or IPv6 address")).

(** [s.rpartition(c)[2]]: what follows the last occurrence of [c], the
    whole of [s] when there is none. *)
Fixpoint after_last (c : ascii) (s : string) : string :=
  match s with
  | EmptyString => EmptyString
  | String d rest =>
      if char_in c rest then after_last c rest
      else if chr_eqb d c then rest
      else s
  end.

(** [_check_bracketed_netloc] *)
Definition check_bracketed_netloc (netloc : string) : outcome unit :=
  let hostname_and_port := after_last "@" netloc in
  match partition_at (chr_eqb "[") hostname_and_port with
  | (before_bracket, Some bracketed) =>
      if truthy before_bracket then Raise (Exception "Invalid IPv6 URL")
      else
        let '(hostname, port) := partition_at (chr_eqb "]") bracketed in
        let port := default EmptyString port in
        if truthy port && negb (startswith ":" port)
        then Raise (Exception "Invalid IPv6 URL")
        else check_bracketed_host hostname
  | (_, None) =>
      check_bracketed_host
        (fst (partition_at (chr_eqb ":") hostname_and_port))
  end.

Definition split_netloc (url : string) : outcome (string * string) :=
  if startswith "//" url then
    let '(netloc, rest) := span_until (fun c => char_in c "/?#") (drop2 url) in
    if xorb (char_in "[" netloc) (char_in "]" netloc)
    then Raise (Exception "Invalid IPv6 URL")
    else
      (if char_in "[" netloc && char_in "]" netloc
       then check_bracketed_netloc netloc else Ok tt) ;;
      Ok (netloc, rest)
  else Ok (EmptyString, url).

(** [_splitparams]: cut at the first semicolon of the last segment. *)
Fixpoint splitparams (url : string) : string :=
  match url with
  | EmptyString => EmptyString
  | String c rest =>
      if chr_eqb c ";" && negb (char_in "/" rest) then EmptyString
      else String c (splitparams rest)
  end.

Definition urlparse_path (url : string) : outcome string :=
  let url := lstrip is_C0_or_space url in
  let url := remove_chars is_unsafe_byte url in
  let '(scheme, url) := split_scheme url in
  '(netloc, url) ← split_netloc url;
  let url := fst (partition_at (chr_eqb "#") url) in
  let url := fst (partition_at (chr_eqb "?") url) in
  let url := if str_in_list scheme uses_params then splitparams url else url in
  Ok url.

(* ===================================================================== *)
(** ** BeautifulSoup trees *)
(* ===================================================================== *)

(** What the parser builds: text ([Text]), strings that are not page
    text, such as the body of a script block or a comment ([Raw]), and
    tags with their attributes and children.  Attribute values are kept
    as written; the parser's splitting of the multi-valued ones
    ([class], and [rel] on anchors and links) into their
    whitespace-separated tokens is done when they are matched. *)
Inductive node : Type :=
| Text (s : string)
| Raw (s : string)
| Elem (name : string) (attrs : list (string * string)) (children : list node).

Definition soup : Type := list node.

(** A tag found in a tree, with its ancestors, nearest first. *)
Record tag : Type := Tag { tag_node : node; tag_parents : list node }.

Definition node_name (n : node) : string :=
  match n with
  | Elem name _ _ => name
  | _ => EmptyString
  end.

Definition node_attrs (n : node) : list (string * string) :=
  match n with
  | Elem _ attrs _ => attrs
  | _ => []
  end.

Definition is_elem (n : node) : bool :=
  match n with
  | Elem _ _ _ => true
  | _ => false
  end.

(** All tags below (and including) a node, in document order. *)
Fixpoint tags_of (parents : list node) (n : node) : list tag :=
  match n with
  | Elem _ _ children =>
      Tag n parents :: flat_map (tags_of (n :: parents)) children
  | _ => []
  end.

Definition all_tags (doc : soup) : list tag := flat_map (tags_of []) doc.

(** [tag.get(key)] for a single-valued attribute. *)
Fixpoint lookup_attr (key : string) (attrs : list (string * string))
  : option string :=
  match attrs with
  | [] => None
  | (k, v) :: rest => if String.eqb k key then Some v else lookup_attr key rest
  end.

Definition tag_get (t : tag) (key : string) : option string :=
  lookup_attr key (node_attrs (tag_node t)).

(** The whitespace-separated tokens of an attribute value. *)
Fixpoint tokens (s : string) : list string :=
  match s with
  | EmptyString => []
  | String c rest =>
      if py_isspace c then tokens rest
      else if first_is py_isspace rest || is_empty rest
           then String c EmptyString :: tokens rest
           else match tokens rest with
                | t :: ts => String c t :: ts
                | [] => [String c EmptyString]
                end
  end.

Definition multi_valued (name key : string) : bool :=
  String.eqb key "class"
  || (String.eqb key "rel" && str_in_list name ["a"; "link"]).

(** Whether an attribute filter [{key: value}] accepts a node: equality
    for a single-valued attribute, membership among the tokens for a
    multi-valued one (the values searched for contain no whitespace). *)
Definition attr_is (key value : string) (n : node) : bool :=
  match lookup_attr key (node_attrs n) with
  | None => false
  | Some v =>
      if multi_valued (node_name n) key then str_in_list value (tokens v)
      else String.eqb v value
  end.

Definition name_is (name : string) (n : node) : bool :=
  is_elem n && String.eqb (node_name n) name.

(** [soup.find_all(name, attrs)] and [soup.find(name, attrs)] for a list
    of attribute filters. *)
Definition find_all (name : string) (attrs : list (string * string))
    (doc : soup) : list tag :=
  List.filter
    (fun t => name_is name (tag_node t)
              && forallb (fun kv => attr_is (fst kv) (snd kv) (tag_node t)) attrs)
    (all_tags doc).

Definition find (name : string) (attrs : list (string * string))
    (doc : soup) : option tag :=
  head (find_all name attrs doc).

(** [soup.select_one('name.cls')] and [soup.select_one('.cls')] *)
Definition select_one_class (name : option string) (cls : string)
    (doc : soup) : option tag :=
  head (List.filter
          (fun t => match name with
                    | Some nm => name_is nm (tag_node t)
                    | None => true
                    end
                    && attr_is "class" cls (tag_node t))
          (all_tags doc)).

(** [tag.find_parent(name)] *)
Fixpoint first_named (name : string) (parents : list node) : option tag :=
  match parents with
  | [] => None
  | p :: rest =>
      if name_is name p then Some (Tag p rest) else first_named name rest
  end.

Definition find_parent (name : string) (t : tag) : option tag :=
  first_named name (tag_parents t).

(** The strings [get_text] collects below a node, in document order. *)
Fixpoint strings_of (n : node) : list string :=
  match n with
  | Text s => [s]
  | Raw _ => []
  | Elem _ _ children => flat_map strings_of children
  end.

(** [tag.get_text(separator=sep, strip=...)]: with [strip], every string
    is stripped and the empty ones are left out. *)
Definition get_text (sep : string) (stripped : bool) (t : tag) : string :=
  let strings := strings_of (tag_node t) in
  join sep (if stripped then List.filter truthy (map py_strip strings)
            else strings).

(** [tag.text] *)
Definition tag_text (t : tag) : string := get_text EmptyString false t.

(** [tag.string]: the only child when it is a string, or the [string] of
    the only child. *)
Fixpoint node_string (n : node) : option string :=
  match n with
  | Text s => Some s
  | Raw s => Some s
  | Elem _ _ [c] => node_string c
  | Elem _ _ _ => None
  end.

Definition tag_string (t : tag) : option string := node_string (tag_node t).

(* ===================================================================== *)
(** ** The network *)
(* ===================================================================== *)

(** A response: its status, the reason phrase and URL that
    [raise_for_status] reports, and the parsed body. *)
Record response : Type := Response {
  status_code : Z;
  reason : string;
  response_url : string;
  body : soup
}.

(** [session.get]: a response, or a raised [RequestException]. *)
Definition session : Type := string -> outcome response.

Definition session_get (s : session) (url : string) : M response :=
  lift (s url).

(** [response.raise_for_status()] *)
Definition raise_for_status (r : response) : M unit :=
  let status := status_code r in
  if (400 <=? status)%Z && (status <? 500)%Z then
    raise (Exception (str_of_Z status +:+ " Client Error: " +:+ reason r
                      +:+ " for url: " +:+ response_url r))
  else if (500 <=? status)%Z && (status <? 600)%Z then
    raise (Exception (str_of_Z status +:+ " Server Error: " +:+ reason r
                      +:+ " for url: " +:+ response_url r))
  else mret tt.

(* ===================================================================== *)
(** ** Configuration *)
(* ===================================================================== *)

Definition SITEMAP_URL : string := "https://www.duramotion.nl/sitemap.xml".
Definition BASE_URL : string := "https://www.duramotion.nl".
Definition MAX_WORKERS : N := 5.
Definition MAX_URLS : N := 10000.
Definition OUTPUT_FILE : string := "Duramotion_Full_Catalog.xlsx".

(** Known non-product paths to skip during harvesting. *)
Definition BLACKLIST : list string :=
  ["contact"; "sitemap"; "nieuws"; "reviews"; "cookies"; "assortiment";
   "categorieen"; "faq"; "vacatures"; "blog"; "team"; "partners";
   "omvormen"; "kennis-partner"; "technische-support"; "klantportaal";
   "projectmanagement"; "express-delivery"; "van-der-valk"; "recom";
   "algemene-voorwaarden"; "privacy"; "enphase"; "his"; "links";
   "nieuwsbrief-inschrijving"; "huawei"; "eaton"; "cimco"; "omvormers";
   "elektra"; "kabels"; "klein-materiaal"; "onderconstructie";
   "calculators"; "chint"; "sas-box"; "cah-caw"].

(** The marker every record uses for a field the page does not have. *)
Definition NA : string := "N/A".

(* ===================================================================== *)
(** ** fetch_sitemap_urls *)
(* ===================================================================== *)

(** [[p for p in path.split('/') if p]] *)
Definition path_parts (path : string) : list string :=
  List.filter truthy (split_char "/" path).

(** One turn of the loop over the sitemap's URLs (lines 51 to 70): the
    list [valid_urls] after the turn.  [urlparse] may raise. *)
Definition filter_url (url : string) (valid_urls : list string)
  : outcome (list string) :=
  if str_in "/nl/" url then
    parsed_path ← urlparse_path url;
    let path := strip_slash parsed_path in
    let parts := path_parts path in
    if length parts <? 2 then Ok valid_urls
    else
      slug ← py_lower <$> getitem_last parts;
      segment_after_lang ←
        (if 1 <? length parts then py_lower <$> getitem parts 1
         else Ok EmptyString);
      if str_in_list slug BLACKLIST || str_in_list segment_after_lang BLACKLIST
      then Ok valid_urls
      else Ok (valid_urls ++ [url])
  else Ok valid_urls.

Fixpoint filter_urls (urls : list string) (valid_urls : list string)
  : outcome (list string) :=
  match urls with
  | [] => Ok valid_urls
  | url :: rest =>
      valid_urls ← filter_url url valid_urls;
      filter_urls rest valid_urls
  end.

(** What Python promises about [list(set(xs))]: the elements of [xs],
    each once, in an order of the interpreter's choosing. *)
Definition set_listing (list_of_set : list string -> list string) : Prop :=
  forall xs, NoDup (list_of_set xs) /\ forall x, x ∈ list_of_set xs <-> x ∈ xs.

Section Harvester.

(** [list(set(...))] as the interpreter happens to order it. *)
Variable list_of_set : list string -> list string.

Definition fetch_sitemap_urls (s : session) : M (list string) :=
  print ("Fetching sitemap from " +:+ SITEMAP_URL +:+ "...") ;;
  try_except
    (response ← session_get s SITEMAP_URL;
     raise_for_status response ;;
     let soup := body response in
     let locs := find_all "loc" [] soup in
     print ("DEBUG: Found " +:+ str_of_nat (length locs) +:+ " <loc> tags.") ;;
     let urls := map tag_text locs in
     valid_urls ← lift (filter_urls urls []);
     let unique_urls := list_of_set valid_urls in
     print ("Total raw URLs: " +:+ str_of_nat (length urls)) ;;
     print ("Total valid URLs: " +:+ str_of_nat (length unique_urls)) ;;
     (if length unique_urls =? 0 then
        print "DEBUG: Sample URLs from sitemap:" ;;
        for_each (take 5 urls) (fun u => print (" - " +:+ u))
      else mret tt) ;;
     print ("Found " +:+ str_of_nat (length unique_urls)
            +:+ " potential product URLs (Dutch). Processing first "
            +:+ pretty MAX_URLS +:+ "...") ;;
     mret (take (N.to_nat MAX_URLS) unique_urls))
    (fun e =>
       print ("Error fetching sitemap: " +:+ exn_msg e) ;;
       mret []).

End Harvester.

(** One admissible order for [list(set(xs))]: first occurrences. *)
Definition first_occurrences (xs : list string) : list string :=
  remove_dups xs.

(* ===================================================================== *)
(** ** JSON values *)
(* ===================================================================== *)

(** What [json.loads] returns.  An object is the list of its fields; as
    in a Python [dict], a key occurs once. *)
Inductive json : Type :=
| JNull
| JBool (b : bool)
| JInt (z : Z)
| JFloat (literal : string)
| JStr (s : string)
| JArr (items : list json)
| JObj (fields : list (string * json)).

Fixpoint lookup_field (key : string) (fields : list (string * json))
  : option json :=
  match fields with
  | [] => None
  | (k, v) :: rest => if String.eqb k key then Some v else lookup_field key rest
  end.

Definition is_str (s : string) (v : json) : bool :=
  match v with
  | JStr s' => String.eqb s' s
  | _ => false
  end.

(** [isinstance(data, list)] *)
Definition is_list (data : json) : bool :=
  match data with
  | JArr _ => true
  | _ => false
  end.

(** [data[0]] on a list *)
Definition first_item (data : json) : outcome json :=
  match data with
  | JArr items => getitem items 0
  | _ => Raise (Exception "object is not subscriptable")
  end.

(** [key in data]: a key of a dict, an element of a list, a substring
    of a string; [TypeError] for the values that are not containers. *)
Definition contains (key : string) (data : json) : outcome bool :=
  match data with
  | JObj fields => Ok (bool_decide (is_Some (lookup_field key fields)))
  | JArr items => Ok (existsb (is_str key) items)
  | JStr s => Ok (str_in key s)
  | _ => Raise (Exception "argument is not iterable")
  end.

(** [data[key]] for a string key: [KeyError] when a dict lacks the key,
    [TypeError] when the value is not a dict. *)
Definition subscript (data : json) (key : string) : outcome json :=
  match data with
  | JObj fields =>
      match lookup_field key fields with
      | Some v => Ok v
      | None => Raise (Exception key)
      end
  | _ => Raise (Exception "indices must be integers")
  end.

(* ===================================================================== *)
(** ** extract_product_data *)
(* ===================================================================== *)

(** A scraped record.  The product code is a string when it comes from
    the page text and whatever JSON value the structured data holds when
    it comes from there. *)
Record record : Type := Record_ {
  Product_Code : json;
  Title : string;
  Description : string;
  Image_Link : string;
  PDF_Link : string;
  Source_URL : string
}.

Section Extractor.

(** [json.loads] on a string, and [urllib.parse.urljoin]; either may
    raise. *)
Variable json_loads : string -> outcome json.
Variable urljoin : string -> string -> outcome string.

(** [json.loads(script.string)]: [script.string] is [None] when the
    block does not hold exactly one string, and [json.loads(None)]
    raises [TypeError]. *)
Definition loads_string (s : option string) : outcome json :=
  match s with
  | Some text => json_loads text
  | None => Raise (Exception "the JSON object must be str, bytes or bytearray, not NoneType")
  end.

(** The body of the [try] inside the loop over the script blocks
    (lines 137 to 144): [Some c] when [code] is set to [c] and the
    loop is left, [None] when the end of the body is reached. *)
Definition read_script (script : tag) : outcome (option json) :=
  data ← loads_string (tag_string script);
  data ← (if is_list data then first_item data else Ok data);
  has_mpn ← contains "mpn" data;
  if (has_mpn : bool) then
    code ← subscript data "mpn";
    Ok (Some code)
  else
    has_sku ← contains "sku" data;
    if (has_sku : bool) then
      code ← subscript data "sku";
      Ok (Some code)
    else Ok None.

(** The loop over the script blocks (lines 135 to 145): the value of
    [code] after it. *)
Fixpoint scan_scripts (scripts : list tag) (code : json) : json :=
  match scripts with
  | [] => code
  | script :: rest =>
      match read_script script with
      | Ok (Some found) => found
      | Ok None => scan_scripts rest code
      | Raise _ => scan_scripts rest code
      end
  end.

(** Lines 129 to 145. *)
Definition product_code (soup : soup) : json :=
  let code := "N/A" in
  let code_div := find "div" [("class", "zl_product_list_code")] soup in
  let code :=
    match code_div with
    | Some div => get_text EmptyString true div
    | None => code
    end in
  if String.eqb code "N/A" then
    let scripts := find_all "script" [("type", "application/ld+json")] soup in
    scan_scripts scripts (JStr code)
  else JStr code.

(** [tag.get('href')] when the tag exists and the value is truthy. *)
Definition truthy_href (t : option tag) : option string :=
  match t with
  | Some t =>
      match tag_get t "href" with
      | Some href => if truthy href then Some href else None
      | None => None
      end
  | None => None
  end.

(** Lines 156 to 165. *)
Definition pdf_link_of (soup : soup) : outcome string :=
  let pdf_link := "N/A" in
  let pdf_tag := select_one_class (Some "a") "fa-file-pdf" soup in
  match truthy_href pdf_tag with
  | Some href => urljoin BASE_URL href
  | None =>
      let pdf_icon := select_one_class None "fa-file-pdf" soup in
      match pdf_icon with
      | Some icon =>
          let parent_a := find_parent "a" icon in
          match truthy_href parent_a with
          | Some href => urljoin BASE_URL href
          | None => Ok pdf_link
          end
      | None => Ok pdf_link
      end
  end.

(** Step 4 of the function (lines 122 to 173): the record read from
    the page that was settled on. *)
Definition scrape (soup : soup) (target_url : string) : outcome record :=
  let title_tag := find "h1" [] soup in
  let title :=
    match title_tag with
    | Some h1 => get_text EmptyString true h1
    | None => "N/A"
    end in
  let code := product_code soup in
  let desc_div := find "div" [("id", "omschrijving")] soup in
  let description :=
    match desc_div with
    | Some div => get_text (String "010" EmptyString) true div
    | None => "N/A"
    end in
  let img_tag := find "a" [("rel", "productImage")] soup in
  image_link ←
    match truthy_href img_tag with
    | Some href => urljoin BASE_URL href
    | None => Ok "N/A"
    end;
  pdf_link ← pdf_link_of soup;
  Ok {| Product_Code := code;
        Title := title;
        Description := description;
        Image_Link := image_link;
        PDF_Link := pdf_link;
        Source_URL := target_url |}.

(** Steps 2 and 3 (lines 100 to 120): the page to scrape and its URL,
    given the Dutch page.  The randomised pause before the second
    request has no effect on any value and is left out. *)
Definition resolve_target (s : session) (dutch_url : string)
    (soup_nl : soup) : M (soup * string) :=
  let target_soup := soup_nl in
  let target_url := dutch_url in
  let en_link_tag := find "link" [("hreflang", "en")] soup_nl in
  match truthy_href en_link_tag with
  | Some english_url =>
      r_en ← session_get s english_url;
      if (status_code r_en =? 200)%Z then
        mret (body r_en, english_url)
      else
        print ("DEBUG: Failed to fetch English URL " +:+ english_url
               +:+ ", using Dutch") ;;
        mret (target_soup, target_url)
  | None => mret (target_soup, target_url)
  end.

(** The body of the function's [try] (lines 90 to 173). *)
Definition extract_body (s : session) (dutch_url : string)
  : M (option record) :=
  r_nl ← session_get s dutch_url;
  if negb (status_code r_nl =? 200)%Z then
    print ("DEBUG: Failed to fetch Dutch URL " +:+ dutch_url +:+ " ("
           +:+ str_of_Z (status_code r_nl) +:+ ")") ;;
    mret None
  else
    let soup_nl := body r_nl in
    '(target_soup, target_url) ← resolve_target s dutch_url soup_nl;
    data ← lift (scrape target_soup target_url);
    mret (Some data).

Definition extract_product_data (s : session) (dutch_url : string)
  : M (option record) :=
  try_except (extract_body s dutch_url)
    (fun e =>
       print ("Error scraping " +:+ dutch_url +:+ " -> English: "
              +:+ exn_msg e) ;;
       mret None).

End Extractor.

(* ===================================================================== *)
(** ** The spreadsheet *)
(* ===================================================================== *)

(** [workbook.add_format({'font_color': 'blue', 'underline': 1})] *)
Record cell_format : Type := Format { font_color : string; underline : Z }.

(** [pd.DataFrame(results)]: the columns are the keys of the records, in
    the order the records list them. *)
Record dataframe : Type := DataFrame {
  columns : list string;
  rows : list (list json)
}.

Definition record_keys : list string :=
  ["Product Code"; "Title"; "Description"; "Image Link"; "PDF Link";
   "Source URL"].

Definition record_values (r : record) : list json :=
  [Product_Code r; JStr (Title r); JStr (Description r);
   JStr (Image_Link r); JStr (PDF_Link r); JStr (Source_URL r)].

Definition make_dataframe (results : list record) : dataframe :=
  DataFrame record_keys (map record_values results).

(** [df.columns.get_loc(key)]: [KeyError] for a missing column. *)
Fixpoint index_of (key : string) (keys : list string) : option nat :=
  match keys with
  | [] => None
  | k :: rest =>
      if String.eqb k key then Some 0 else S <$> index_of key rest
  end.

Definition get_loc (df : dataframe) (key : string) : outcome nat :=
  match index_of key (columns df) with
  | Some i => Ok i
  | None => Raise (Exception key)
  end.

(** The Excel writer of pandas on the xlsxwriter engine, as far as
    [main] calls it: [pd.ExcelWriter(path, engine='xlsxwriter')],
    [df.to_excel(writer, index=False, sheet_name=...)],
    [worksheet.write_url(row, col, url, format, string=text)],
    [worksheet.write_string(row, col, text)] and [writer.close()].
    The library is not part of the program.  Each call returns or
    raises, and what a call that returns has done to the sheet is the
    library's decision: xlsxwriter, for one, ignores with a warning a
    URL of more than 2079 characters, and [to_excel] passes every value
    to [worksheet.write], which writes nothing for an empty one.
    [book] is the workbook in the making, with the sheet that
    [writer.sheets['Catalog']] selects once [to_excel] has made it;
    [file] is what [close] saves.  The format that [add_format] returns
    is the value [Format] passed to [write_url]. *)
Record spreadsheet : Type := Spreadsheet {
  book : Type;
  file : Type;
  ExcelWriter : string -> outcome book;
  to_excel : dataframe -> string -> book -> outcome book;
  write_url :
    nat -> nat -> string -> cell_format -> string -> book -> outcome book;
  write_string : nat -> nat -> string -> book -> outcome book;
  close : book -> outcome file
}.

Section Report.

Variable lib : spreadsheet.

(** The loop over the rows (lines 220 to 231), from row number
    [row_num] on.  An exception raised by the library leaves the
    loop. *)
Fixpoint write_links (link_format : cell_format) (img_col_idx pdf_col_idx : nat)
    (links : list (string * string)) (row_num : nat) (wb : book lib)
  : outcome (book lib) :=
  match links with
  | [] => Ok wb
  | (img_link, pdf_link) :: rest =>
      let excel_row := row_num + 1 in
      wb ←
        (if negb (String.eqb img_link "N/A") then
           write_url lib excel_row img_col_idx img_link link_format img_link wb
         else write_string lib excel_row img_col_idx "N/A" wb);
      wb ←
        (if negb (String.eqb pdf_link "N/A") then
           write_url lib excel_row pdf_col_idx pdf_link link_format pdf_link wb
         else write_string lib excel_row pdf_col_idx "N/A" wb);
      write_links link_format img_col_idx pdf_col_idx rest (row_num + 1) wb
  end.

(** Phase 3 of [main] (lines 201 to 233): the file saved, if any.
    Nothing here catches an exception of the library: it ends the
    program before the file is saved. *)
Definition export (results : list record) : M (option (file lib)) :=
  match results with
  | [] =>
      print "No results extracted. Check if English versions exist." ;;
      mret None
  | _ =>
      print ("Exporting " +:+ str_of_nat (length results)
             +:+ " items to Excel...") ;;
      let df := make_dataframe results in
      writer ← lift (ExcelWriter lib OUTPUT_FILE);
      writer ← lift (to_excel lib df "Catalog" writer);
      let link_format := Format "blue" 1 in
      img_col_idx ← lift (get_loc df "Image Link");
      pdf_col_idx ← lift (get_loc df "PDF Link");
      let links := map (fun r => (Image_Link r, PDF_Link r)) results in
      writer ← lift (write_links link_format img_col_idx pdf_col_idx links 0
                       writer);
      saved ← lift (close lib writer);
      print ("Done! Saved to " +:+ OUTPUT_FILE) ;;
      mret (Some saved)
  end.

End Report.

(* ===================================================================== *)
(** ** main *)
(* ===================================================================== *)

(** What the thread pool promises about [as_completed]: every future
    once, in the order in which the tasks happen to finish. *)
Definition completion_order {A} (as_completed : list A -> list A) : Prop :=
  forall futures, Permutation (as_completed futures) futures.

Section Main.

Variable lib : spreadsheet.
Variable json_loads : string -> outcome json.
Variable urljoin : string -> string -> outcome string.
Variable list_of_set : list string -> list string.
Variable as_completed : list (M (option record)) -> list (M (option record)).

(** [future.result()]: what the task returned, or the exception it
    raised, raised again in the main thread.  The lines a task prints
    come out on the worker's side, interleaved with the main thread's
    in no fixed order; they are not part of the main thread's
    console. *)
Definition future_result {A} (future : M A) : M A := lift (result future).

(** The loop over the completed futures (lines 193 to 199). *)
Fixpoint collect (futures : list (M (option record))) (total : nat)
    (results : list record) (completed : nat) : M (list record) :=
  match futures with
  | [] => mret results
  | future :: rest =>
      data ← future_result future;
      let results :=
        match data with
        | Some r => results ++ [r]
        | None => results
        end in
      let completed := completed + 1 in
      (if completed mod 10 =? 0 then
         print ("Progress: " +:+ str_of_nat completed +:+ "/"
                +:+ str_of_nat total)
       else mret tt) ;;
      collect rest total results completed
  end.

(** [main]: the file it saves, if any.  Setting the headers of the
    session changes what the network sees, not what the program
    does. *)
Definition main (s : session) : M (option (file lib)) :=
  dutch_urls ← fetch_sitemap_urls list_of_set s;
  match dutch_urls with
  | [] =>
      print "No URLs found. Exiting." ;;
      mret None
  | _ =>
      print ("Starting extraction for " +:+ str_of_nat (length dutch_urls)
             +:+ " items (Dutch -> English)...") ;;
      let futures :=
        map (extract_product_data json_loads urljoin s) dutch_urls in
      results ← collect (as_completed futures) (length dutch_urls) [] 0;
      export lib results
  end.

End Main.

(* ===================================================================== *)
(** ** Notions the specification speaks of *)
(* ===================================================================== *)

(** The non-empty segments of the path of a URL, as the harvester
    computes them. *)
Definition url_segments (url : string) : outcome (list string) :=
  (fun path => path_parts (strip_slash path)) <$> urlparse_path url.

(** The language-scope marker, as a path segment. *)
Definition LANG_MARKER : string := "nl".

(** The segment immediately following the first occurrence of a marker
    segment. *)
Fixpoint segment_after (marker : string) (parts : list string)
  : option string :=
  match parts with
  | [] => None
  | p :: rest =>
      if String.eqb p marker then head rest else segment_after marker rest
  end.

(** The sitemap entries: the texts of the location elements. *)
Definition sitemap_entries (r : response) : list string :=
  map tag_text (find_all "loc" [] (body r)).

(** The status codes on which [raise_for_status] raises. *)
Definition is_http_error (status : Z) : bool :=
  (400 <=? status)%Z && (status <? 600)%Z.

(** What the extractor returns for the record read from a page: the
    record, or nothing when reading it raised. *)
Definition scraped (o : outcome record) : outcome (option record) :=
  match o with
  | Ok r => Ok (Some r)
  | Raise _ => Ok None
  end.

Section SpecCode.

Variable json_loads : string -> outcome json.

(** A script block parsed as a data object: the value the parser
    returns, or its first element when that value is a sequence;
    nothing when the block fails to parse. *)
Definition spec_parsed (script : tag) : option json :=
  match loads_string json_loads (tag_string script) with
  | Ok (JArr items) => head items
  | Ok data => Some data
  | Raise _ => None
  end.

(** The manufacturer part number of a data object if present, else its
    stock-keeping unit if present. *)
Definition spec_part_number (data : json) : option json :=
  match data with
  | JObj fields =>
      match lookup_field "mpn" fields with
      | Some v => Some v
      | None => lookup_field "sku" fields
      end
  | _ => None
  end.

(** The first match across the script blocks, in document order. *)
Definition spec_code_of_scripts (scripts : list tag) : option json :=
  head (omap (fun script => spec_parsed script ≫= spec_part_number) scripts).

End SpecCode.

(** The structured-data script blocks of a page, in document order. *)
Definition ld_json_scripts (page : soup) : list tag :=
  find_all "script" [("type", "application/ld+json")] page.

(** The product-code container, the description container and the
    English alternate link of a page. *)
Definition code_container (page : soup) : option tag :=
  find "div" [("class", "zl_product_list_code")] page.

Definition description_container (page : soup) : option tag :=
  find "div" [("id", "omschrijving")] page.

Definition english_links (page : soup) : list tag :=
  find_all "link" [("hreflang", "en")] page.

(** An element that is missing or carries no target: no href, or an
    empty one. *)
Definition without_target (t : option tag) : Prop :=
  t = None \/
  exists a, t = Some a /\
    (tag_get a "href" = None \/ tag_get a "href" = Some EmptyString).

(** The record a finished task hands to the main thread, if any. *)
Definition record_of (future : M (option record)) : option record :=
  match result future with
  | Ok (Some r) => Some r
  | _ => None
  end.

(** What the report writer asks the library to put into a cell: a
    hyperlink with a target, a format and a display text, or a plain
    text. *)
Inductive cell_request : Type :=
| Hyperlink (row col : nat) (url : string) (fmt : cell_format) (text : string)
| PlainText (row col : nat) (text : string).

Definition perform (lib : spreadsheet) (request : cell_request)
    (wb : book lib) : outcome (book lib) :=
  match request with
  | Hyperlink row col url fmt text => write_url lib row col url fmt text wb
  | PlainText row col text => write_string lib row col text wb
  end.

(** The requests of a list made one after the other, up to the first
    that raises. *)
Fixpoint perform_all (lib : spreadsheet) (requests : list cell_request)
    (wb : book lib) : outcome (book lib) :=
  match requests with
  | [] => Ok wb
  | request :: rest =>
      wb ← perform lib request wb;
      perform_all lib rest wb
  end.

(** The request for a link field: a hyperlink, blue and underlined,
    whose target and display text are the field's value, or the plain
    text of the absent marker when the value is that marker. *)
Definition link_request (row col : nat) (value : string) : cell_request :=
  if decide (value = NA) then PlainText row col NA
  else Hyperlink row col value (Format "blue" 1) value.

(** The requests for a collection of records: for the record at index
    [i], row [i + 1], the image link in column 3 and then the document
    link in column 4. *)
Definition link_requests (results : list record) : list cell_request :=
  concat (imap (fun i r => [link_request (S i) 3 (Image_Link r);
                            link_request (S i) 4 (PDF_Link r)]) results).

(** Whether a request asks for a hyperlink. *)
Definition is_hyperlink (request : cell_request) : Prop :=
  match request with
  | Hyperlink _ _ _ _ _ => True
  | PlainText _ _ _ => False
  end.

(** What the report writer asks of the library for a non-empty
    collection: a writer on the output file, the frame of the records
    on the sheet "Catalog", the link requests, and the file saved. *)
Definition report (lib : spreadsheet) (results : list record)
  : outcome (option (file lib)) :=
  wb ← ExcelWriter lib OUTPUT_FILE;
  wb ← to_excel lib (make_dataframe results) "Catalog" wb;
  wb ← perform_all lib (link_requests results) wb;
  saved ← close lib wb;
  Ok (Some saved).

(* ===================================================================== *)
(** ** A sample site *)
(* ===================================================================== *)

(** A small site on which the program can be run: a sitemap, two
    products (one with an English page) and the library functions'
    results on the texts that occur in it. *)

Definition sitemap_of (urls : list string) : soup :=
  [Elem "urlset" []
     (map (fun u => Elem "url" [] [Elem "loc" [] [Text u]]) urls)].

Definition ok_response (url : string) (page : soup) : response :=
  Response 200 "OK" url page.

Fixpoint lookup_page (url : string) (pages : list (string * response))
  : option response :=
  match pages with
  | [] => None
  | (u, r) :: rest => if String.eqb u url then Some r else lookup_page url rest
  end.

(** A network that serves the given pages and fails to connect for any
    other URL. *)
Definition site (pages : list (string * response)) : session :=
  fun url =>
    match lookup_page url pages with
    | Some r => Ok r
    | None => Raise (Exception "Connection refused")
    end.

(** A network that serves only a sitemap with the given entries. *)
Definition sitemap_site (urls : list string) : session :=
  site [(SITEMAP_URL, ok_response SITEMAP_URL (sitemap_of urls))].

Definition dq : string := String "034" EmptyString.

Definition json_pair (key value : string) : string :=
  dq +:+ key +:+ dq +:+ ": " +:+ dq +:+ value +:+ dq.

Definition mpn_block : string := "{" +:+ json_pair "mpn" "DM-100" +:+ "}".
Definition sku_block : string := "[{" +:+ json_pair "sku" "SKU-7" +:+ "}]".
Definition broken_block : string := "{not json".

(** [json.loads] on the script bodies of the sample pages. *)
Definition sample_loads (text : string) : outcome json :=
  if String.eqb text mpn_block then Ok (JObj [("mpn", JStr "DM-100")])
  else if String.eqb text sku_block then Ok (JArr [JObj [("sku", JStr "SKU-7")]])
  else Raise (Exception "Expecting property name enclosed in double quotes").

(** [urljoin] on the references of the sample pages, all of them
    absolute paths without dot segments. *)
Definition sample_urljoin (base url : string) : outcome string :=
  if startswith "/" url then Ok (base +:+ url) else Ok url.

Definition nl_prod1_url : string := "https://www.duramotion.nl/nl/zonnekabel-6mm".
Definition en_prod1_url : string := "https://www.duramotion.nl/en/solar-cable-6mm".
Definition nl_prod2_url : string := "https://www.duramotion.nl/nl/kabelgoot".
Definition nl_blog_url : string := "https://www.duramotion.nl/nl/blog/post-1".

Definition ld_json (text : string) : node :=
  Elem "script" [("type", "application/ld+json")] [Raw text].

Definition nl_prod1_page : soup :=
  [Elem "html" []
     [Elem "head" []
        [Elem "link" [("rel", "alternate"); ("hreflang", "en");
                      ("href", en_prod1_url)] []];
      Elem "body" [] [Elem "h1" [] [Text "Zonnekabel 6mm"]]]].

Definition en_prod1_page : soup :=
  [Elem "html" []
     [Elem "head" [] [ld_json mpn_block];
      Elem "body" []
        [Elem "h1" [] [Text " Solar cable 6mm "];
         Elem "div" [("class", "zl_product_list_code")] [Text "N/A"];
         Elem "div" [("id", "omschrijving")]
           [Text " Flexible "; Elem "br" [] []; Text "UV resistant"];
         Elem "a" [("rel", "productImage"); ("href", "/img/cable.jpg")] [];
         Elem "a" [("href", "/docs/cable.pdf")]
           [Elem "i" [("class", "fa fa-file-pdf")] []]]]].

Definition nl_prod2_page : soup :=
  [Elem "html" []
     [Elem "head" [] [ld_json broken_block; ld_json sku_block];
      Elem "body" [] [Elem "h1" [] [Text "Kabelgoot"]]]].

Definition sample_site : session :=
  site [(SITEMAP_URL,
         ok_response SITEMAP_URL
           (sitemap_of [nl_prod1_url; nl_blog_url; nl_prod1_url; nl_prod2_url]));
        (nl_prod1_url, ok_response nl_prod1_url nl_prod1_page);
        (en_prod1_url, ok_response en_prod1_url en_prod1_page);
        (nl_prod2_url, ok_response nl_prod2_url nl_prod2_page)].

(** Two records, one with both links and one without any. *)
Definition linked_record : record :=
  {| Product_Code := JStr "DM-100";
     Title := "Solar cable 6mm";
     Description := "Flexible";
     Image_Link := "https://example.com/a.jpg";
     PDF_Link := "https://example.com/a.pdf";
     Source_URL := en_prod1_url |}.

Definition bare_record : record :=
  {| Product_Code := JStr "N/A";
     Title := "Kabelgoot";
     Description := "N/A";
     Image_Link := "N/A";
     PDF_Link := "N/A";
     Source_URL := nl_prod2_url |}.

(** A URL whose path has a segment before the language marker, and one
    that carries the marker only in its query. *)
Definition nested_blog_url : string :=
  "https://www.duramotion.nl/shop/nl/blog/post-1".
Definition query_marker_url : string :=
  "https://www.duramotion.nl/en/product?ref=/nl/".

(** A product page with two English alternate links, the first of them
    without a target. *)
Definition nl_prod3_url : string := "https://www.duramotion.nl/nl/omvormer-x".
Definition en_prod3_url : string := "https://www.duramotion.nl/en/inverter-x".

Definition nl_prod3_page : soup :=
  [Elem "html" []
     [Elem "head" []
        [Elem "link" [("rel", "alternate"); ("hreflang", "en")] [];
         Elem "link" [("rel", "alternate"); ("hreflang", "en");
                      ("href", en_prod3_url)] []];
      Elem "body" [] [Elem "h1" [] [Text "Omvormer X"]]]].

Definition en_prod3_page : soup :=
  [Elem "html" [] [Elem "body" [] [Elem "h1" [] [Text "Inverter X"]]]].

Definition two_links_site : session :=
  site [(nl_prod3_url, ok_response nl_prod3_url nl_prod3_page);
        (en_prod3_url, ok_response en_prod3_url en_prod3_page)].

(** A sitemap entry the loop of [fetch_sitemap_urls] appends to
    [valid_urls]: its text contains ["/nl/"], its path has at least two
    non-empty segments, and neither the last of them nor the second,
    lowercased, is in the blacklist. *)
Definition accepted (url : string) : Prop :=
  str_in "/nl/" url = true /\
  exists parts,
    url_segments url = Ok parts /\
    2 <= length parts /\
    str_in_list (py_lower (last_item parts)) BLACKLIST = false /\
    str_in_list (py_lower (item 1 parts)) BLACKLIST = false.

(** Equality of two path segments when letter case is ignored. *)
Definition eq_ignoring_case (a b : string) : Prop := py_lower a = py_lower b.

(** Whether the last character of a string satisfies a predicate. *)
Fixpoint last_is (p : ascii -> bool) (s : string) : bool :=
  match s with
  | EmptyString => false
  | String c EmptyString => p c
  | String _ rest => last_is p rest
  end.

(** A text that begins or ends with whitespace. *)
Definition padded (s : string) : bool :=
  first_is py_isspace s || last_is py_isspace s.

(** The line the main thread prints after the [k]-th completion when
    [k] is a multiple of ten. *)
Definition progress_line (total k : nat) : string :=
  "Progress: " +:+ str_of_nat k +:+ "/" +:+ str_of_nat total.

(** The first line the harvester prints. *)
Definition fetching_line : string :=
  "Fetching sitemap from " +:+ SITEMAP_URL +:+ "...".

(** A network on which every request fails. *)
Definition offline : session := site [].

(** A network whose sitemap answers 404. *)
Definition missing_sitemap_site : session :=
  site [(SITEMAP_URL, Response 404 "Not Found" SITEMAP_URL [])].

(** A sitemap entry with an unmatched bracket in its host, on which
    [urlparse] raises. *)
Definition broken_host_url : string := "http://[::1/nl/kabels/x".

(** The sample site with the English page of the first product out of
    reach. *)
Definition alternate_down_site : session :=
  site [(nl_prod1_url, ok_response nl_prod1_url nl_prod1_page)].

(** A product page whose image anchor has a target [urljoin] rejects. *)
Definition bad_image_url : string := "https://www.duramotion.nl/nl/lasdoos".

Definition bad_image_page : soup :=
  [Elem "html" []
     [Elem "body" []
        [Elem "h1" [] [Text "Lasdoos"];
         Elem "a" [("rel", "productImage"); ("href", "http://[broken")] []]]].

Definition bad_image_site : session :=
  site [(bad_image_url, ok_response bad_image_url bad_image_page)].

(** [urljoin] on the references of the sample pages, raising as
    [urljoin] does on a reference with an unmatched bracket. *)
Definition picky_urljoin (base url : string) : outcome string :=
  if xorb (char_in "[" url) (char_in "]" url)
  then Raise (Exception "Invalid IPv6 URL")
  else sample_urljoin base url.

(** A sample spreadsheet library.  A sheet is a finite map from
    positions to cells.  A URL of more than [MAX_URL_LENGTH] characters
    is ignored, as xlsxwriter documents it for [write_url]; [to_excel]
    passes the titles and the values to the sheet as [worksheet.write]
    takes them: nothing for an empty or missing value, a link for a
    string that begins like a URL, the text or the value otherwise.  No
    call of this library raises. *)
Inductive cell : Type :=
| StringCell (text : string)
| UrlCell (url : string) (fmt : option cell_format) (text : string)
| DataCell (value : json).

Abbreviation worksheet := (gmap (nat * nat) cell).

Record xlsx : Type := Xlsx {
  file_name : string;
  sheet_name : string;
  cells : worksheet
}.

Definition MAX_URL_LENGTH : nat := 2079.

Definition url_like (s : string) : bool :=
  existsb (fun prefix => startswith prefix s)
    ["http://"; "https://"; "ftp://"; "mailto:"; "internal:"; "external:"].

Definition put_url (row col : nat) (url : string) (fmt : option cell_format)
    (text : string) (ws : worksheet) : worksheet :=
  if MAX_URL_LENGTH <? String.length url then ws
  else <[(row, col) := UrlCell url fmt text]> ws.

Definition put_value (row col : nat) (value : json) (ws : worksheet)
  : worksheet :=
  match value with
  | JNull => ws
  | JStr s =>
      if is_empty s then ws
      else if url_like s then put_url row col s None s ws
      else <[(row, col) := StringCell s]> ws
  | _ => <[(row, col) := DataCell value]> ws
  end.

Definition put_row (row : nat) (values : list json) (ws : worksheet)
  : worksheet :=
  fold_left (fun ws cv => put_value row (fst cv) (snd cv) ws)
            (imap (fun col v => (col, v)) values) ws.

Definition put_frame (df : dataframe) (ws : worksheet) : worksheet :=
  fold_left (fun ws rv => put_row (S (fst rv)) (snd rv) ws)
            (imap (fun i values => (i, values)) (rows df))
            (put_row 0 (map JStr (columns df)) ws).

Definition on_cells (f : worksheet -> worksheet) (wb : xlsx) : outcome xlsx :=
  Ok (Xlsx (file_name wb) (sheet_name wb) (f (cells wb))).

Definition sample_xlsxwriter : spreadsheet :=
  {| book := xlsx;
     file := xlsx;
     ExcelWriter := fun path => Ok (Xlsx path EmptyString ∅);
     to_excel := fun df sheet wb =>
       Ok (Xlsx (file_name wb) sheet (put_frame df (cells wb)));
     write_url := fun row col url fmt text =>
       on_cells (put_url row col url (Some fmt) text);
     write_string := fun row col text =>
       on_cells (fun ws => <[(row, col) := StringCell text]> ws);
     close := fun wb => Ok wb |}.

(** A library whose every call raises, as when the engine is not
    installed. *)
Definition missing_engine : spreadsheet :=
  {| book := unit;
     file := unit;
     ExcelWriter := fun _ => Raise (Exception "No module named 'xlsxwriter'");
     to_excel := fun _ _ _ => Raise (Exception "No module named 'xlsxwriter'");
     write_url := fun _ _ _ _ _ _ =>
       Raise (Exception "No module named 'xlsxwriter'");
     write_string := fun _ _ _ _ =>
       Raise (Exception "No module named 'xlsxwriter'");
     close := fun _ => Raise (Exception "No module named 'xlsxwriter'") |}.

(** [s * n] *)
Fixpoint repeat_string (s : string) (n : nat) : string :=
  match n with
  | 0 => EmptyString
  | S m => s +:+ repeat_string s m
  end.

(** A record whose image link has 2100 characters. *)
Definition long_link : string :=
  "https://example.com/" +:+ repeat_string "a" 2080.

Definition long_link_record : record :=
  {| Product_Code := JStr "DM-200";
     Title := "Kabelhaspel";
     Description := "N/A";
     Image_Link := long_link;
     PDF_Link := "N/A";
     Source_URL := "https://www.duramotion.nl/nl/kabelhaspel" |}.

(** A product page whose title and description elements are empty. *)
Definition blank_url : string := "https://www.duramotion.nl/nl/naamloos".

Definition blank_page : soup :=
  [Elem "html" []
     [Elem "body" []
        [Elem "h1" [] [Text "  "];
         Elem "div" [("id", "omschrijving")] []]]].

Definition blank_site : session :=
  site [(blank_url, ok_response blank_url blank_page)].

(** A candidate page whose English alternate is the page with the image
    target [urljoin] rejects. *)
Definition bad_alternate_url : string :=
  "https://www.duramotion.nl/nl/lasdoos-xl".

Definition bad_alternate_page : soup :=
  [Elem "html" []
     [Elem "head" []
        [Elem "link" [("rel", "alternate"); ("hreflang", "en");
                      ("href", bad_image_url)] []];
      Elem "body" [] [Elem "h1" [] [Text "Lasdoos XL"]]]].

Definition bad_alternate_site : session :=
  site [(bad_alternate_url, ok_response bad_alternate_url bad_alternate_page);
        (bad_image_url, ok_response bad_image_url bad_image_page)].

(** Sitemap entries that differ in their fragment only: the loop accepts
    each of them. *)
Definition numbered_url (n : nat) : string :=
  "https://www.duramotion.nl/nl/zonnepanelen/paneel#" +:+ str_of_nat n.

Definition numbered_urls (count : nat) : list string :=
  map numbered_url (seq 0 count).

(** One such entry more than [MAX_URLS], and a sitemap that lists them
    before an entry on which [urlparse] raises. *)
Definition many_entries : list string :=
  numbered_urls (S (N.to_nat MAX_URLS)).

Definition crowded_site : session :=
  sitemap_site (many_entries ++ [broken_host_url]).

(* ===================================================================== *)
(** * Properties *)
(* ===================================================================== *)

(** ** The monad *)

Lemma result_bind {A B} (m : M A) (f : A -> M B) :
  result (m ≫= f) = result m ≫= (fun a => result (f a)).
Proof. unfold mbind, M_bind, outcome_bind. by destruct (result m). Qed.

Lemma result_lift {A} (o : outcome A) : result (lift o) = o.
Proof. done. Qed.

Lemma result_try_except {A} (body : M A) (handler : exn -> M A) :
  result (try_except body handler) =
  match result body with
  | Ok a => Ok a
  | Raise e => result (handler e)
  end.
Proof. unfold try_except. by destruct (result body) eqn:E. Qed.

Lemma result_for_each_print {A} (xs : list A) (line : A -> string) :
  result (for_each xs (fun x => print (line x))) = Ok tt.
Proof.
  induction xs as [|x xs IH]; [done|].
  simpl. exact IH.
Qed.

Ltac run := repeat (rewrite ?result_bind, ?result_try_except, ?result_lift; simpl).

Lemma console_bind {A B} (m : M A) (f : A -> M B) :
  console (m ≫= f) =
  console m ++ match result m with
               | Ok a => console (f a)
               | Raise _ => []
               end.
Proof.
  unfold mbind, M_bind. destruct (result m); simpl; [done|].
  by rewrite app_nil_r.
Qed.

Lemma M_eta {A} (m : M A) : m = Run (console m) (result m).
Proof. by destruct m. Qed.

Lemma bind_ok {A B} (c : list string) (a : A) (f : A -> M B) :
  Run c (Ok a) ≫= f = Run (c ++ console (f a)) (result (f a)).
Proof. done. Qed.

Lemma bind_raise {A B} (c : list string) (e : exn) (f : A -> M B) :
  Run c (Raise e) ≫= f = Run c (Raise e).
Proof. done. Qed.

Lemma try_except_ok {A} (c : list string) (a : A) (handler : exn -> M A) :
  try_except (Run c (Ok a)) handler = Run c (Ok a).
Proof. done. Qed.

Lemma try_except_raise {A} (c : list string) (e : exn) (handler : exn -> M A) :
  try_except (Run c (Raise e)) handler
  = Run (c ++ console (handler e)) (result (handler e)).
Proof. done. Qed.

(** ** Lists and strings *)

Lemma last_cons {A} (rest : list A) (x d : A) :
  List.last (x :: rest) d = List.last rest x.
Proof.
  revert x d. induction rest as [|y rest IH]; intros x d; [done|].
  change (List.last (x :: y :: rest) d) with (List.last (y :: rest) d).
  by rewrite (IH y d), (IH y x).
Qed.

Lemma getitem_last_item (parts : list string) :
  parts <> [] -> getitem_last parts = Ok (last_item parts).
Proof.
  destruct parts as [|p rest]; [done|]. intros _. unfold last_item. simpl.
  f_equal. symmetry. apply last_cons.
Qed.

Lemma getitem_item (parts : list string) (i : nat) :
  i < length parts -> getitem parts i = Ok (item i parts).
Proof.
  revert i. induction parts as [|p rest IH]; intros i Hi; simpl in Hi; [lia|].
  destruct i as [|i]; [done|]. apply (IH i). lia.
Qed.

Lemma first_occurrences_listing : set_listing first_occurrences.
Proof.
  intros xs. split.
  - apply NoDup_remove_dups.
  - intros x. apply elem_of_remove_dups.
Qed.

Lemma listing_length (list_of_set : list string -> list string) xs :
  set_listing list_of_set ->
  length (list_of_set xs) = length (remove_dups xs).
Proof.
  intros H. destruct (H xs) as [Hnd Hin].
  apply Permutation_length, NoDup_Permutation; [done|apply NoDup_remove_dups|].
  intros x. rewrite Hin. symmetry. apply elem_of_remove_dups.
Qed.

(** ** The harvester *)

Lemma raise_for_status_ok (r : response) :
  is_http_error (status_code r) = false -> raise_for_status r = mret tt.
Proof.
  unfold is_http_error, raise_for_status. intros H.
  destruct (400 <=? status_code r)%Z eqn:E1; simpl in *.
  - destruct (status_code r <? 500)%Z eqn:E2; simpl; [lia|].
    destruct (500 <=? status_code r)%Z eqn:E3; simpl; [|done].
    by rewrite H.
  - destruct (500 <=? status_code r)%Z eqn:E3; simpl; [lia|done].
Qed.

Lemma raise_for_status_error (r : response) :
  is_http_error (status_code r) = true ->
  exists e, raise_for_status r = raise e.
Proof.
  unfold is_http_error, raise_for_status. intros H.
  destruct (400 <=? status_code r)%Z eqn:E1; simpl in *; [|done].
  destruct (status_code r <? 500)%Z eqn:E2; simpl; [eauto|].
  destruct (500 <=? status_code r)%Z eqn:E3; simpl; [|lia].
  rewrite H. eauto.
Qed.

(** What one turn of the loop does to [valid_urls]. *)
Lemma filter_url_inv (url : string) (acc v : list string) :
  filter_url url acc = Ok v ->
  v = acc \/ (v = acc ++ [url] /\ accepted url).
Proof.
  unfold filter_url, accepted, url_segments.
  remember BLACKLIST as blacklist eqn:Hbl.
  destruct (str_in "/nl/" url) eqn:Hnl; [|intros [= <-]; by left].
  destruct (urlparse_path url) as [path|e] eqn:Hpath; simpl; [|done].
  set (parts := path_parts (strip_slash path)).
  destruct (length parts <? 2) eqn:Hlen; [intros [= <-]; by left|].
  apply Nat.ltb_ge in Hlen.
  rewrite getitem_last_item by (intros E; rewrite E in Hlen; simpl in Hlen; lia).
  destruct (1 <? length parts) eqn:H1; [|apply Nat.ltb_ge in H1; lia].
  rewrite getitem_item by lia. simpl.
  destruct (str_in_list (py_lower (last_item parts)) blacklist) eqn:Hslug;
    simpl; [intros [= <-]; by left|].
  destruct (str_in_list (py_lower (item 1 parts)) blacklist) eqn:Hseg;
    simpl; [intros [= <-]; by left|].
  intros [= <-]. right. split; [done|]. split; [done|].
  exists parts. by repeat split.
Qed.

Lemma filter_urls_inv (urls : list string) :
  forall acc v, filter_urls urls acc = Ok v ->
  forall u, u ∈ v -> u ∈ acc \/ (u ∈ urls /\ accepted u).
Proof.
  induction urls as [|url rest IH]; intros acc v H u Hu; simpl in H.
  - injection H as <-. by left.
  - destruct (filter_url url acc) as [acc'|e] eqn:Hstep; simpl in H; [|done].
    destruct (IH _ _ H u Hu) as [Hin|[Hin Hacc]].
    + destruct (filter_url_inv _ _ _ Hstep) as [->|[-> Ha]]; [by left|].
      apply elem_of_app in Hin as [Hin|Hin]; [by left|].
      apply list_elem_of_singleton in Hin as ->. right. split; [left|done].
    + right. split; [by right|done].
Qed.

(** The four ways the function can end. *)
Lemma fetch_request_fails list_of_set (s : session) e :
  s SITEMAP_URL = Raise e ->
  result (fetch_sitemap_urls list_of_set s) = Ok [].
Proof. intros H. unfold fetch_sitemap_urls, session_get. run. by rewrite H. Qed.

Lemma fetch_http_error list_of_set (s : session) r :
  s SITEMAP_URL = Ok r -> is_http_error (status_code r) = true ->
  result (fetch_sitemap_urls list_of_set s) = Ok [].
Proof.
  intros H Hst. unfold fetch_sitemap_urls, session_get. run. rewrite H. simpl.
  destruct (raise_for_status_error r Hst) as [e ->]. by run.
Qed.

Lemma fetch_urlparse_fails list_of_set (s : session) r e :
  s SITEMAP_URL = Ok r -> is_http_error (status_code r) = false ->
  filter_urls (sitemap_entries r) [] = Raise e ->
  result (fetch_sitemap_urls list_of_set s) = Ok [].
Proof.
  intros H Hst Hf. unfold fetch_sitemap_urls, session_get. run. rewrite H. simpl.
  rewrite (raise_for_status_ok r Hst). run.
  unfold sitemap_entries in Hf. by rewrite Hf.
Qed.

Lemma fetch_returns list_of_set (s : session) r valid_urls :
  s SITEMAP_URL = Ok r -> is_http_error (status_code r) = false ->
  filter_urls (sitemap_entries r) [] = Ok valid_urls ->
  result (fetch_sitemap_urls list_of_set s) =
  Ok (take (N.to_nat MAX_URLS) (list_of_set valid_urls)).
Proof.
  intros H Hst Hf. unfold fetch_sitemap_urls, session_get. run. rewrite H. simpl.
  rewrite (raise_for_status_ok r Hst). run.
  unfold sitemap_entries in Hf. rewrite Hf. simpl.
  destruct (length (list_of_set valid_urls) =? 0); run; [|done].
  by rewrite result_for_each_print.
Qed.

Lemma fetch_inv list_of_set (s : session) out :
  result (fetch_sitemap_urls list_of_set s) = Ok out ->
  out = [] \/
  exists r valid_urls,
    s SITEMAP_URL = Ok r /\ is_http_error (status_code r) = false /\
    filter_urls (sitemap_entries r) [] = Ok valid_urls /\
    out = take (N.to_nat MAX_URLS) (list_of_set valid_urls).
Proof.
  intros H.
  destruct (s SITEMAP_URL) as [r|e] eqn:Hs.
  - destruct (is_http_error (status_code r)) eqn:Hst.
    + rewrite (fetch_http_error _ _ _ Hs Hst) in H. injection H as <-. by left.
    + destruct (filter_urls (sitemap_entries r) []) as [v|e] eqn:Hf.
      * rewrite (fetch_returns _ _ _ _ Hs Hst Hf) in H. injection H as <-.
        right. by exists r, v.
      * rewrite (fetch_urlparse_fails _ _ _ _ Hs Hst Hf) in H.
        injection H as <-. by left.
  - rewrite (fetch_request_fails _ _ _ Hs) in H. injection H as <-. by left.
Qed.

(** The function never raises. *)
Lemma fetch_total list_of_set (s : session) :
  exists out, result (fetch_sitemap_urls list_of_set s) = Ok out.
Proof.
  destruct (s SITEMAP_URL) as [r|e] eqn:Hs;
    [|eauto using fetch_request_fails].
  destruct (is_http_error (status_code r)) eqn:Hst;
    [eauto using fetch_http_error|].
  destruct (filter_urls (sitemap_entries r) []) as [v|e] eqn:Hf;
    eauto using fetch_returns, fetch_urlparse_fails.
Qed.

(** Every URL the harvester returns was accepted by the loop. *)
Lemma fetch_accepted list_of_set (s : session) out url :
  set_listing list_of_set ->
  result (fetch_sitemap_urls list_of_set s) = Ok out ->
  url ∈ out -> accepted url.
Proof.
  intros Hlist H Hin.
  destruct (fetch_inv _ _ _ H) as [->|(r & v & Hs & Hst & Hf & ->)].
  - by apply elem_of_nil in Hin.
  - apply elem_of_take in Hin as (i & Hi & _).
    apply list_elem_of_lookup_2 in Hi.
    apply (Hlist v) in Hi.
    destruct (filter_urls_inv _ _ _ Hf url Hi) as [Hnil|[_ Hacc]]; [|done].
    by apply elem_of_nil in Hnil.
Qed.

(** When the language marker is the first segment of the path, the
    segment the loop checks second is the one that follows the marker. *)
Lemma segment_after_first (parts : list string) :
  head parts = Some LANG_MARKER -> 2 <= length parts ->
  segment_after LANG_MARKER parts = Some (item 1 parts).
Proof.
  destruct parts as [|p [|q rest]]; simpl; intros H Hlen; try lia.
  injection H as ->. done.
Qed.

Lemma str_in_list_false (x : string) (xs : list string) :
  str_in_list x xs = false <-> x ∉ xs.
Proof.
  unfold str_in_list. induction xs as [|y ys IH]; simpl.
  - split; [intros _ H; by apply elem_of_nil in H|done].
  - rewrite orb_false_iff, IH, not_elem_of_cons, String.eqb_neq. tauto.
Qed.

(** What the harvester does guarantee about the blacklist: of every URL
    it returns, neither the last nor the second path segment,
    lowercased, is blacklisted; the second segment is the one after the
    language marker when the marker comes first in the path. *)
Lemma harvest_blacklist list_of_set (s : session) out url :
  set_listing list_of_set ->
  result (fetch_sitemap_urls list_of_set s) = Ok out ->
  url ∈ out ->
  exists parts,
    url_segments url = Ok parts /\
    (py_lower (last_item parts) ∉ BLACKLIST) /\
    (py_lower (item 1 parts) ∉ BLACKLIST) /\
    (head parts = Some LANG_MARKER ->
     exists seg, segment_after LANG_MARKER parts = Some seg /\
                 (py_lower seg ∉ BLACKLIST)).
Proof.
  intros Hlist H Hin.
  destruct (fetch_accepted _ _ _ _ Hlist H Hin) as (_ & parts & Hp & Hlen & H1 & H2).
  exists parts. apply str_in_list_false in H1, H2.
  repeat split; try done.
  intros Hhead. exists (item 1 parts). split; [|done].
  by apply segment_after_first.
Qed.

(** C1 (defect in the code).  The claim: of every accepted sitemap
    entry, the last path segment and the segment immediately following
    the language marker are absent from the blacklist, so that an entry
    whose path ends in /nl/blog/post-1 is excluded.  The code checks the
    second segment of the path, whatever the position of the marker: the
    entry https://www.duramotion.nl/shop/nl/blog/post-1, whose segment
    after the marker is the blacklisted "blog", is returned by the
    harvester. *)
Theorem C1_blacklisted_segment_after_marker_is_kept :
  url_segments nested_blog_url = Ok ["shop"; "nl"; "blog"; "post-1"] /\
  segment_after LANG_MARKER ["shop"; "nl"; "blog"; "post-1"] = Some "blog" /\
  str_in_list (py_lower "blog") BLACKLIST = true /\
  filter_urls [nested_blog_url] [] = Ok [nested_blog_url] /\
  result (fetch_sitemap_urls first_occurrences (sitemap_site [nested_blog_url]))
  = Ok [nested_blog_url].
Proof. vm_compute. by repeat split. Qed.

(** C2, the claim as stated, fails: the entry
    https://www.duramotion.nl/en/product?ref=/nl/ is returned by the
    harvester although no segment of its path /en/product is the
    language marker (the text "/nl/" occurs in its query). *)
Lemma C2_counterexample :
  set_listing first_occurrences /\
  result (fetch_sitemap_urls first_occurrences (sitemap_site [query_marker_url]))
  = Ok [query_marker_url] /\
  url_segments query_marker_url = Ok ["en"; "product"] /\
  LANG_MARKER ∉ ["en"; "product"].
Proof.
  split; [apply first_occurrences_listing|].
  split; [by vm_compute|]. split; [by vm_compute|].
  apply str_in_list_false. by vm_compute.
Qed.

(** C2 (amended).  Every URL the harvester returns contains the text
    "/nl/" somewhere in the URL string, and its path has at least two
    non-empty segments; so every sitemap entry whose URL string lacks
    "/nl/", or whose path has fewer than two non-empty segments, is
    excluded from the candidate set. *)
Theorem C2_returned_urls_contain_marker_text list_of_set (s : session) out :
  set_listing list_of_set ->
  result (fetch_sitemap_urls list_of_set s) = Ok out ->
  (forall url, url ∈ out ->
     str_in "/nl/" url = true /\
     exists parts, url_segments url = Ok parts /\ 2 <= length parts) /\
  (forall url,
     str_in "/nl/" url = false \/
     (forall parts, url_segments url = Ok parts -> length parts < 2) ->
     url ∉ out).
Proof.
  intros Hlist H.
  assert (Hacc : forall url, url ∈ out ->
            str_in "/nl/" url = true /\
            exists parts, url_segments url = Ok parts /\ 2 <= length parts).
  { intros url Hin.
    destruct (fetch_accepted _ _ _ _ Hlist H Hin) as (Hnl & parts & Hp & Hlen & _).
    eauto. }
  split; [done|].
  intros url Hno Hin. destruct (Hacc url Hin) as (Hnl & parts & Hp & Hlen).
  destruct Hno as [Hno|Hno]; [congruence|].
  specialize (Hno parts Hp). lia.
Qed.

Lemma C2_witness :
  (forall url, url ∈ [nl_prod1_url; nl_prod2_url] ->
     str_in "/nl/" url = true /\
     exists parts, url_segments url = Ok parts /\ 2 <= length parts) /\
  (forall url,
     str_in "/nl/" url = false \/
     (forall parts, url_segments url = Ok parts -> length parts < 2) ->
     url ∉ [nl_prod1_url; nl_prod2_url]).
Proof.
  apply (C2_returned_urls_contain_marker_text first_occurrences sample_site).
  - apply first_occurrences_listing.
  - vm_compute. reflexivity.
Defined.

Lemma filter_url_accepts (url : string) (acc : list string) :
  accepted url -> filter_url url acc = Ok (acc ++ [url]).
Proof.
  intros (Hnl & parts & Hp & Hlen & H1 & H2). unfold url_segments in Hp.
  destruct (urlparse_path url) as [path|e] eqn:Hpath; simpl in Hp; [|done].
  injection Hp as <-. unfold filter_url. rewrite Hnl, Hpath.
  remember BLACKLIST as blacklist eqn:Hbl.
  cbn [mbind outcome_bind].
  set (parts := path_parts (strip_slash path)) in *.
  destruct (length parts <? 2) eqn:E; [apply Nat.ltb_lt in E; lia|].
  rewrite getitem_last_item by (intros E'; rewrite E' in Hlen; simpl in Hlen; lia).
  destruct (1 <? length parts) eqn:E1; [|apply Nat.ltb_ge in E1; lia].
  rewrite getitem_item by lia.
  cbn [fmap outcome_fmap mbind outcome_bind]. by rewrite H1, H2.
Qed.

Lemma filter_url_raise_inv (url : string) (acc : list string) e :
  filter_url url acc = Raise e ->
  str_in "/nl/" url = true /\ urlparse_path url = Raise e.
Proof.
  unfold filter_url. remember BLACKLIST as blacklist eqn:Hbl.
  destruct (str_in "/nl/" url); [|done].
  destruct (urlparse_path url) as [path|e'];
    cbn [mbind outcome_bind]; [|by intros [= ->]].
  set (parts := path_parts (strip_slash path)).
  destruct (length parts <? 2) eqn:E; [done|]. apply Nat.ltb_ge in E.
  rewrite getitem_last_item by (intros E'; rewrite E' in E; simpl in E; lia).
  destruct (1 <? length parts) eqn:E1; [|apply Nat.ltb_ge in E1; lia].
  rewrite getitem_item by lia.
  cbn [fmap outcome_fmap mbind outcome_bind].
  by destruct (_ || _).
Qed.

Lemma filter_url_raises (url : string) (acc : list string) e :
  str_in "/nl/" url = true -> urlparse_path url = Raise e ->
  filter_url url acc = Raise e.
Proof. intros Hnl Hp. unfold filter_url. by rewrite Hnl, Hp. Qed.

(** The loop keeps what it has and appends every accepted entry. *)
Lemma filter_urls_complete (urls : list string) :
  forall acc v, filter_urls urls acc = Ok v ->
  (forall u, u ∈ acc -> u ∈ v) /\
  (forall u, u ∈ urls -> accepted u -> u ∈ v) /\
  length v <= length acc + length urls.
Proof.
  induction urls as [|url rest IH]; intros acc v H; simpl in H.
  - injection H as <-. repeat split; [done| |lia].
    intros u Hu. by apply elem_of_nil in Hu.
  - destruct (filter_url url acc) as [acc'|e] eqn:Hstep; simpl in H; [|done].
    destruct (IH _ _ H) as (Hkeep & Hnew & Hlen).
    assert (Hacc : (forall u, u ∈ acc -> u ∈ acc') /\
                   length acc' <= length acc + 1).
    { destruct (filter_url_inv _ _ _ Hstep) as [->|[-> _]].
      - split; [done|lia].
      - split; [intros u Hu; apply elem_of_app; by left|].
        rewrite length_app. simpl. lia. }
    destruct Hacc as [Hsub Hlen'].
    repeat split.
    + intros u Hu. auto.
    + intros u Hu Ha. apply elem_of_cons in Hu as [->|Hu]; [|auto].
      apply Hkeep. rewrite (filter_url_accepts _ acc Ha) in Hstep.
      injection Hstep as <-. apply elem_of_app. right. left.
    + simpl. lia.
Qed.

(** The loop raises only if [urlparse] raises on an entry it looks at. *)
Lemma filter_urls_total (urls : list string) :
  forall acc,
    (forall u, u ∈ urls -> str_in "/nl/" u = true ->
               exists path, urlparse_path u = Ok path) ->
    exists v, filter_urls urls acc = Ok v.
Proof.
  induction urls as [|url rest IH]; intros acc Hok; simpl; [eauto|].
  destruct (filter_url url acc) as [acc'|e] eqn:Hstep; simpl.
  - apply IH. intros u Hu. apply Hok. by right.
  - apply filter_url_raise_inv in Hstep as [Hnl Hraise].
    destruct (Hok url) as [path Hpath]; [left|done|]. congruence.
Qed.

Lemma filter_urls_raises (urls : list string) :
  forall acc u e,
    u ∈ urls -> str_in "/nl/" u = true -> urlparse_path u = Raise e ->
    exists e', filter_urls urls acc = Raise e'.
Proof.
  induction urls as [|url rest IH]; intros acc u e Hu Hnl Hraise.
  - by apply elem_of_nil in Hu.
  - simpl. destruct (filter_url url acc) as [acc'|e'] eqn:Hstep; simpl; [|eauto].
    apply elem_of_cons in Hu as [->|Hu]; [|eauto].
    rewrite (filter_url_raises _ _ _ Hnl Hraise) in Hstep. done.
Qed.

(** The loop appends every entry of a list of accepted entries. *)
Lemma filter_urls_accepts (urls : list string) :
  forall acc,
    (forall u, u ∈ urls -> accepted u) ->
    filter_urls urls acc = Ok (acc ++ urls).
Proof.
  induction urls as [|u rest IH]; intros acc Hacc.
  - simpl. by rewrite app_nil_r.
  - cbn [filter_urls]. rewrite (filter_url_accepts u acc) by (apply Hacc; left).
    cbn [mbind outcome_bind].
    rewrite IH by (intros v Hv; apply Hacc; by right).
    by rewrite <- app_assoc.
Qed.

(** The entries of a sitemap written with [sitemap_of]. *)
Lemma loc_texts (parents : list node) (urls : list string) :
  map tag_text
    (List.filter
       (fun t => name_is "loc" (tag_node t)
                 && forallb (fun kv => attr_is (fst kv) (snd kv) (tag_node t)) [])
       (flat_map (tags_of parents)
          (map (fun u => Elem "url" [] [Elem "loc" [] [Text u]]) urls)))
  = urls.
Proof.
  induction urls as [|u rest IH]; [done|].
  cbn [map flat_map tags_of app].
  cbn [List.filter tag_node name_is is_elem node_name forallb andb].
  change ("url" =? "loc")%string with false.
  change ("loc" =? "loc")%string with true.
  cbn [List.filter map andb]. f_equal. exact IH.
Qed.

Lemma sitemap_of_entries (url : string) (urls : list string) :
  sitemap_entries (ok_response url (sitemap_of urls)) = urls.
Proof.
  unfold sitemap_entries, ok_response, sitemap_of, find_all, all_tags.
  cbn [body flat_map tags_of app]. rewrite ?app_nil_r.
  cbn [List.filter tag_node name_is is_elem node_name andb].
  change ("urlset" =? "loc")%string with false. cbn [andb].
  apply loc_texts.
Qed.

Lemma sitemap_site_serves (urls : list string) :
  sitemap_site urls SITEMAP_URL
  = Ok (ok_response SITEMAP_URL (sitemap_of urls)).
Proof.
  unfold sitemap_site, site. cbn [lookup_page]. by rewrite String.eqb_refl.
Qed.

(** The numbered entries are accepted and differ from one another. *)
Lemma numbered_url_accepted (n : nat) : accepted (numbered_url n).
Proof.
  unfold numbered_url. generalize (str_of_nat n). intros w.
  split; [vm_compute; reflexivity|].
  exists ["nl"; "zonnepanelen"; "paneel"].
  split; [vm_compute; reflexivity|].
  split; [simpl; lia|].
  split; vm_compute; reflexivity.
Qed.

Lemma append_cancel (prefix a b : string) :
  prefix +:+ a = prefix +:+ b -> a = b.
Proof.
  induction prefix as [|c prefix IH]; [done|].
  simpl. intros [= H]. auto.
Qed.

Lemma numbered_urls_NoDup (count : nat) : NoDup (numbered_urls count).
Proof.
  unfold numbered_urls. apply NoDup_fmap_2; [|apply NoDup_seq].
  intros a b H. unfold numbered_url, str_of_nat in H.
  apply append_cancel in H. apply (inj pretty) in H. lia.
Qed.

(** C4, the claim as stated, fails: a sitemap may hold more than
    [MAX_URLS] distinct entries that the loop accepts, and the harvester
    still return no URL at all.  Here the loop accepts [MAX_URLS + 1]
    entries and then meets an entry on which [urlparse] raises; the
    handler of the function returns the empty list. *)
Lemma C4_counterexample :
  NoDup many_entries /\
  N.to_nat MAX_URLS < length many_entries /\
  (forall u, u ∈ many_entries -> accepted u) /\
  filter_urls many_entries [] = Ok many_entries /\
  filter_url broken_host_url many_entries
  = Raise (Exception "Invalid IPv6 URL") /\
  forall list_of_set,
    result (fetch_sitemap_urls list_of_set crowded_site) = Ok [].
Proof.
  unfold crowded_site, many_entries.
  generalize (S (N.to_nat MAX_URLS)) (Nat.lt_succ_diag_r (N.to_nat MAX_URLS)).
  intros count Hcount.
  assert (Hacc : forall u, u ∈ numbered_urls count -> accepted u).
  { intros u Hu. apply list_elem_of_fmap in Hu as (n & -> & _).
    apply numbered_url_accepted. }
  assert (Hbroken : urlparse_path broken_host_url
                    = Raise (Exception "Invalid IPv6 URL"))
    by (vm_compute; reflexivity).
  split; [apply numbered_urls_NoDup|].
  split; [unfold numbered_urls; by rewrite length_map, length_seq|].
  split; [done|].
  split; [exact (filter_urls_accepts _ [] Hacc)|].
  split; [apply filter_url_raises; [vm_compute; reflexivity|exact Hbroken]|].
  intros list_of_set.
  destruct (filter_urls_raises (numbered_urls count ++ [broken_host_url]) []
              broken_host_url (Exception "Invalid IPv6 URL")) as [e He];
    [apply elem_of_app; right; left|vm_compute; reflexivity|exact Hbroken|].
  apply (fetch_urlparse_fails _ _ _ e (sitemap_site_serves _)).
  - reflexivity.
  - by rewrite sitemap_of_entries.
Qed.

(** C4 (amended).  The harvester's output has no duplicates and never
    more than [MAX_URLS] elements.  When the sitemap is fetched with a
    status outside 400 to 599 and [urlparse] raises on no entry that
    contains "/nl/", the output consists of accepted entries: exactly
    [MAX_URLS] of them when there are more distinct accepted entries
    than that, and otherwise every accepted entry (once, however often
    the sitemap lists it).  When [urlparse] raises on an entry that
    contains "/nl/", the output is empty whatever was accepted. *)
Theorem C4_output_deduplicated_and_capped list_of_set (s : session) :
  set_listing list_of_set ->
  (forall out, result (fetch_sitemap_urls list_of_set s) = Ok out ->
     NoDup out /\ length out <= N.to_nat MAX_URLS) /\
  (forall r,
     s SITEMAP_URL = Ok r -> is_http_error (status_code r) = false ->
     (forall u, u ∈ sitemap_entries r -> str_in "/nl/" u = true ->
                exists path, urlparse_path u = Ok path) ->
     exists valid_urls out,
       filter_urls (sitemap_entries r) [] = Ok valid_urls /\
       (forall u, u ∈ valid_urls <-> u ∈ sitemap_entries r /\ accepted u) /\
       result (fetch_sitemap_urls list_of_set s) = Ok out /\
       NoDup out /\
       (forall u, u ∈ out -> u ∈ valid_urls) /\
       (N.to_nat MAX_URLS < length (remove_dups valid_urls) ->
        length out = N.to_nat MAX_URLS) /\
       (length (remove_dups valid_urls) <= N.to_nat MAX_URLS ->
        forall u, u ∈ valid_urls -> u ∈ out)) /\
  (forall r u e,
     s SITEMAP_URL = Ok r -> u ∈ sitemap_entries r ->
     str_in "/nl/" u = true -> urlparse_path u = Raise e ->
     result (fetch_sitemap_urls list_of_set s) = Ok []).
Proof.
  intros Hlist.
  assert (Hcap : forall v,
            NoDup (take (N.to_nat MAX_URLS) (list_of_set v)) /\
            length (take (N.to_nat MAX_URLS) (list_of_set v)) <= N.to_nat MAX_URLS).
  { intros v. split.
    - eapply sublist_NoDup; [apply Hlist|apply sublist_take].
    - rewrite length_take. lia. }
  split; [|split].
  - intros out H.
    destruct (fetch_inv _ _ _ H) as [->|(r & v & _ & _ & _ & ->)].
    + split; [apply NoDup_nil_2|simpl; lia].
    + apply Hcap.
  - intros r Hs Hst Hparse.
    destruct (filter_urls_total _ [] Hparse) as [v Hf].
    destruct (filter_urls_complete _ _ _ Hf) as (_ & Hnew & _).
    exists v, (take (N.to_nat MAX_URLS) (list_of_set v)).
    split; [done|]. split.
    { intros u. split.
      - intros Hu.
        destruct (filter_urls_inv _ _ _ Hf u Hu) as [Hnil|[? ?]]; [|done].
        by apply elem_of_nil in Hnil.
      - intros [Hu Ha]. auto. }
    split; [by apply (fetch_returns _ _ r)|]. split; [apply Hcap|].
    split; [|split].
    + intros u Hu. apply elem_of_take in Hu as (i & Hi & _).
      apply list_elem_of_lookup_2 in Hi. by apply (Hlist v).
    + intros Hmany. rewrite length_take, (listing_length _ _ Hlist). lia.
    + intros Hfew u Hu. rewrite take_ge.
      * by apply (Hlist v).
      * rewrite (listing_length _ _ Hlist). lia.
  - intros r u e Hs Hu Hnl Hraise.
    destruct (is_http_error (status_code r)) eqn:Hst.
    + by apply (fetch_http_error _ _ r).
    + destruct (filter_urls_raises _ [] _ _ Hu Hnl Hraise) as [e' Hf].
      by apply (fetch_urlparse_fails _ _ r e').
Qed.

Lemma C4_witness :
  (NoDup [nl_prod1_url; nl_prod2_url] /\
   length [nl_prod1_url; nl_prod2_url] <= N.to_nat MAX_URLS) /\
  exists valid_urls out,
    filter_urls [nl_prod1_url; nl_blog_url; nl_prod1_url; nl_prod2_url] []
    = Ok valid_urls /\
    (forall u,
       u ∈ valid_urls <->
       u ∈ [nl_prod1_url; nl_blog_url; nl_prod1_url; nl_prod2_url]
       /\ accepted u) /\
    result (fetch_sitemap_urls first_occurrences sample_site) = Ok out /\
    NoDup out /\
    (forall u, u ∈ out -> u ∈ valid_urls) /\
    (N.to_nat MAX_URLS < length (remove_dups valid_urls) ->
     length out = N.to_nat MAX_URLS) /\
    (length (remove_dups valid_urls) <= N.to_nat MAX_URLS ->
     forall u, u ∈ valid_urls -> u ∈ out).
Proof.
  destruct (C4_output_deduplicated_and_capped first_occurrences sample_site
              first_occurrences_listing) as (Hany & Hrun & _).
  split.
  - apply Hany. vm_compute. reflexivity.
  - apply (Hrun (ok_response SITEMAP_URL
                   (sitemap_of [nl_prod1_url; nl_blog_url; nl_prod1_url;
                                nl_prod2_url]))).
    + vm_compute. reflexivity.
    + vm_compute. reflexivity.
    + intros u Hu _.
      change (u ∈ [nl_prod1_url; nl_blog_url; nl_prod1_url; nl_prod2_url]) in Hu.
      repeat (apply elem_of_cons in Hu as [->|Hu];
              [eexists; vm_compute; reflexivity|]).
      by apply elem_of_nil in Hu.
Defined.

(** ** The extractor *)

Lemma truthy_href_some (t : option tag) (href : string) :
  truthy_href t = Some href <->
  exists link, t = Some link /\ tag_get link "href" = Some href
               /\ href <> EmptyString.
Proof.
  unfold truthy_href. split.
  - destruct t as [link|]; [|done].
    destruct (tag_get link "href") as [h|] eqn:E; [|done].
    destruct h as [|c h]; simpl; [done|]. intros [= <-]. by exists link.
  - intros (link & -> & -> & Hne). by destruct href.
Qed.

Lemma truthy_href_none (t : option tag) :
  truthy_href t = None <->
  t = None \/
  exists link, t = Some link /\
    (tag_get link "href" = None \/ tag_get link "href" = Some EmptyString).
Proof.
  unfold truthy_href. split.
  - destruct t as [link|]; [|by left].
    destruct (tag_get link "href") as [[|c h]|] eqn:E; simpl; [| done |].
    + intros _. right. exists link. auto.
    + intros _. right. exists link. auto.
  - intros [->|(link & -> & [->| ->])]; done.
Qed.

(** The record keeps the URL it was scraped under. *)
Lemma scrape_source_url json_loads urljoin (page : soup) url r :
  scrape json_loads urljoin page url = Ok r -> Source_URL r = url.
Proof.
  unfold scrape.
  destruct (match truthy_href (find "a" [("rel", "productImage")] page) with
            | Some href => urljoin BASE_URL href
            | None => Ok "N/A"
            end) as [img|e]; simpl; [|done].
  destruct (pdf_link_of urljoin page) as [pdf|e]; simpl; [|done].
  by intros [= <-].
Qed.

Lemma scraped_inv (o : outcome record) r :
  scraped o = Ok (Some r) <-> o = Ok r.
Proof. destruct o; simpl; split; congruence. Qed.

(** The result of the try body once the Dutch page is in. *)
Lemma extract_after_fetch json_loads urljoin (s : session) dutch_url r_nl :
  s dutch_url = Ok r_nl -> status_code r_nl = 200%Z ->
  result (extract_product_data json_loads urljoin s dutch_url) =
  match truthy_href (find "link" [("hreflang", "en")] (body r_nl)) with
  | Some english_url =>
      match s english_url with
      | Ok r_en =>
          if (status_code r_en =? 200)%Z
          then scraped (scrape json_loads urljoin (body r_en) english_url)
          else scraped (scrape json_loads urljoin (body r_nl) dutch_url)
      | Raise _ => Ok None
      end
  | None => scraped (scrape json_loads urljoin (body r_nl) dutch_url)
  end.
Proof.
  intros Hs Hst.
  unfold extract_product_data, extract_body, resolve_target, session_get.
  rewrite result_try_except, result_bind, result_lift, Hs. simpl.
  rewrite Hst. simpl.
  destruct (truthy_href _) as [english_url|].
  - destruct (s english_url) as [r_en|e]; simpl; [|done].
    destruct (status_code r_en =? 200)%Z; simpl.
    + by destruct (scrape _ _ (body r_en) english_url).
    + by destruct (scrape _ _ (body r_nl) dutch_url).
  - simpl. by destruct (scrape _ _ (body r_nl) dutch_url).
Qed.

Lemma extract_fetch_fails json_loads urljoin (s : session) dutch_url e :
  s dutch_url = Raise e ->
  result (extract_product_data json_loads urljoin s dutch_url) = Ok None.
Proof.
  intros Hs. unfold extract_product_data, extract_body, session_get.
  by rewrite result_try_except, result_bind, result_lift, Hs.
Qed.

Lemma extract_fetch_not_200 json_loads urljoin (s : session) dutch_url r_nl :
  s dutch_url = Ok r_nl -> status_code r_nl <> 200%Z ->
  result (extract_product_data json_loads urljoin s dutch_url) = Ok None.
Proof.
  intros Hs Hst. unfold extract_product_data, extract_body, session_get.
  rewrite result_try_except, result_bind, result_lift, Hs. simpl.
  apply Z.eqb_neq in Hst. by rewrite Hst.
Qed.

(** No exception leaves the function. *)
Lemma extract_total json_loads urljoin (s : session) dutch_url :
  exists data,
    result (extract_product_data json_loads urljoin s dutch_url) = Ok data.
Proof.
  unfold extract_product_data. rewrite result_try_except.
  destruct (result (extract_body _ _ s dutch_url)); eauto.
Qed.

(** A returned record was scraped from the page served at its source
    URL. *)
Lemma extract_some_inv json_loads urljoin (s : session) dutch_url r :
  result (extract_product_data json_loads urljoin s dutch_url) = Ok (Some r) ->
  exists resp,
    s (Source_URL r) = Ok resp /\ status_code resp = 200%Z /\
    scrape json_loads urljoin (body resp) (Source_URL r) = Ok r.
Proof.
  intros H.
  destruct (s dutch_url) as [r_nl|e] eqn:Hs;
    [|by rewrite (extract_fetch_fails _ _ _ _ _ Hs) in H].
  destruct (decide (status_code r_nl = 200%Z)) as [Hst|Hst];
    [|by rewrite (extract_fetch_not_200 _ _ _ _ _ Hs Hst) in H].
  rewrite (extract_after_fetch _ _ _ _ _ Hs Hst) in H.
  assert (Hnl : scraped (scrape json_loads urljoin (body r_nl) dutch_url)
                = Ok (Some r) ->
                exists resp, s (Source_URL r) = Ok resp /\
                  status_code resp = 200%Z /\
                  scrape json_loads urljoin (body resp) (Source_URL r) = Ok r).
  { intros Hsc%scraped_inv. rewrite (scrape_source_url _ _ _ _ _ Hsc). eauto. }
  destruct (truthy_href _) as [english_url|]; [|auto].
  destruct (s english_url) as [r_en|e] eqn:Hen; [|done].
  destruct (status_code r_en =? 200)%Z eqn:Hst_en; [|auto].
  apply scraped_inv in H. rewrite (scrape_source_url _ _ _ _ _ H).
  apply Z.eqb_eq in Hst_en. eauto.
Qed.

Lemma find_english_link (page : soup) :
  find "link" [("hreflang", "en")] page = head (english_links page).
Proof. done. Qed.

(** C3, the claim as stated, fails: the page served at
    https://www.duramotion.nl/nl/omvormer-x contains an English
    alternate link with a target that answers 200, yet the record keeps
    the original URL as its source, because the first English alternate
    link of the page, the only one the code looks at, has no target. *)
Lemma C3_counterexample :
  (exists link, link ∈ english_links nl_prod3_page /\
                tag_get link "href" = Some en_prod3_url) /\
  (exists r_en, two_links_site en_prod3_url = Ok r_en /\
                status_code r_en = 200%Z) /\
  exists r,
    result (extract_product_data sample_loads sample_urljoin two_links_site
              nl_prod3_url) = Ok (Some r) /\
    Source_URL r = nl_prod3_url /\ Source_URL r <> en_prod3_url.
Proof.
  split; [|split].
  - eexists. split; [right; left|]. by vm_compute.
  - eexists. split; by vm_compute.
  - eexists. split; [by vm_compute|]. split; [done|]. by vm_compute.
Qed.

(** C3 (amended).  Once the candidate page is fetched with status 200:
    if the first link element with hreflang "en" of that page carries a
    non-empty href and fetching that href returns status 200, the result
    is the record read from the alternate page, with the alternate's URL
    as its source URL; if the page has no link element with hreflang
    "en", or the first such element has no href or an empty one, or the
    fetch of that href returns a status other than 200, the result is
    the record read from the originally fetched page, with the candidate
    URL as its source URL.  (The result is absent when reading the
    record raises.) *)
Theorem C3_source_follows_first_english_link
    json_loads urljoin (s : session) dutch_url r_nl :
  s dutch_url = Ok r_nl -> status_code r_nl = 200%Z ->
  let extraction :=
    result (extract_product_data json_loads urljoin s dutch_url) in
  let from_original :=
    scraped (scrape json_loads urljoin (body r_nl) dutch_url) in
  (forall link others english_url r_en,
     english_links (body r_nl) = link :: others ->
     tag_get link "href" = Some english_url -> english_url <> EmptyString ->
     s english_url = Ok r_en -> status_code r_en = 200%Z ->
     extraction = scraped (scrape json_loads urljoin (body r_en) english_url))
  /\ (english_links (body r_nl) = [] -> extraction = from_original)
  /\ (forall link others,
        english_links (body r_nl) = link :: others ->
        tag_get link "href" = None \/ tag_get link "href" = Some EmptyString ->
        extraction = from_original)
  /\ (forall link others english_url r_en,
        english_links (body r_nl) = link :: others ->
        tag_get link "href" = Some english_url ->
        s english_url = Ok r_en -> status_code r_en <> 200%Z ->
        extraction = from_original)
  /\ (forall page url r,
        scraped (scrape json_loads urljoin page url) = Ok (Some r) ->
        Source_URL r = url /\ scrape json_loads urljoin page url = Ok r).
Proof.
  intros Hs Hst extraction from_original. subst extraction from_original.
  rewrite (extract_after_fetch _ _ _ _ _ Hs Hst), find_english_link.
  split; [|split; [|split; [|split]]].
  - intros link others english_url r_en Hlinks Hhref Hne Hen Hst_en.
    rewrite Hlinks. change (head (link :: others)) with (Some link).
    assert (truthy_href (Some link) = Some english_url) as ->
      by (apply truthy_href_some; eauto).
    rewrite Hen. apply Z.eqb_eq in Hst_en. by rewrite Hst_en.
  - intros ->. done.
  - intros link others Hlinks Hhref. rewrite Hlinks. change (head (link :: others)) with (Some link).
    assert (truthy_href (Some link) = None) as ->
      by (apply truthy_href_none; eauto).
    done.
  - intros link others english_url r_en Hlinks Hhref Hen Hst_en.
    rewrite Hlinks. change (head (link :: others)) with (Some link).
    destruct (truthy_href (Some link)) as [h|] eqn:Hth; [|done].
    apply truthy_href_some in Hth as (link' & [= <-] & Hh & _).
    rewrite Hhref in Hh. injection Hh as <-.
    rewrite Hen. apply Z.eqb_neq in Hst_en. by rewrite Hst_en.
  - intros page url r Hsc%scraped_inv. split; [|done].
    by apply scrape_source_url in Hsc.
Qed.

Lemma C3_witness :
  result (extract_product_data sample_loads sample_urljoin sample_site
            nl_prod1_url)
  = scraped (scrape sample_loads sample_urljoin en_prod1_page en_prod1_url).
Proof.
  destruct (C3_source_follows_first_english_link sample_loads sample_urljoin
              sample_site nl_prod1_url (ok_response nl_prod1_url nl_prod1_page))
    as [Halt _].
  - vm_compute. reflexivity.
  - reflexivity.
  - eapply (Halt _ _ en_prod1_url (ok_response en_prod1_url en_prod1_page)).
    + vm_compute. reflexivity.
    + vm_compute. reflexivity.
    + discriminate.
    + vm_compute. reflexivity.
    + reflexivity.
Defined.

(** ** The batch *)

(** One turn of the loop over the completed futures. *)
Lemma collect_cons (future : M (option record)) rest total results completed data :
  result future = Ok data ->
  result (collect (future :: rest) total results completed)
  = result (collect rest total
              match data with
              | Some r => results ++ [r]
              | None => results
              end (completed + 1)).
Proof.
  intros H. cbn [collect]. rewrite result_bind. unfold future_result.
  rewrite result_lift, H. cbn [mbind outcome_bind]. rewrite result_bind.
  by destruct (_ =? 0).
Qed.

(** When no task raises, the loop over the completed futures gathers
    the records of the tasks that returned one, in completion order. *)
Lemma collect_result (futures : list (M (option record))) (total : nat) :
  forall results completed,
    (forall f, f ∈ futures -> exists data, result f = Ok data) ->
    result (collect futures total results completed)
    = Ok (results ++ omap record_of futures).
Proof.
  induction futures as [|future rest IH]; intros results completed Hok.
  - simpl. by rewrite app_nil_r.
  - destruct (Hok future) as [data Hdata]; [left|].
    rewrite (collect_cons _ _ _ _ _ _ Hdata), IH
      by (intros f Hf; apply Hok; by right).
    cbn [omap list_omap]. unfold record_of at 2. rewrite Hdata.
    destruct data as [r|]; [|done]. by rewrite <- app_assoc.
Qed.

(** The console of the loop over the completed futures. *)
Lemma collect_console (futures : list (M (option record))) (total : nat) :
  forall results completed,
    (forall f, f ∈ futures -> exists data, result f = Ok data) ->
    console (collect futures total results completed)
    = map (progress_line total)
        (List.filter (fun k => k mod 10 =? 0)
           (seq (S completed) (length futures))).
Proof.
  induction futures as [|future rest IH]; intros results completed Hok;
    [done|].
  destruct (Hok future) as [data Hdata]; [left|].
  cbn [collect length seq List.filter map]. unfold future_result, lift.
  rewrite Hdata, bind_ok. cbn beta. cbn [console app].
  rewrite console_bind, Nat.add_1_r.
  destruct (S completed mod 10 =? 0) eqn:E.
  - cbn [print console result map app]. f_equal.
    apply IH. intros f Hf. apply Hok. by right.
  - cbn [mret M_ret console result app].
    apply IH. intros f Hf. apply Hok. by right.
Qed.

Lemma batch_records json_loads urljoin as_completed (s : session)
    (urls : list string) (total : nat) :
  completion_order as_completed ->
  exists results,
    result (collect (as_completed (map (extract_product_data json_loads urljoin s) urls))
              total [] 0) = Ok results /\
    forall r, r ∈ results <->
      exists u, u ∈ urls /\
        result (extract_product_data json_loads urljoin s u) = Ok (Some r).
Proof.
  intros Hperm.
  set (futures := map (extract_product_data json_loads urljoin s) urls).
  assert (Hok : forall f, f ∈ as_completed futures ->
                          exists data, result f = Ok data).
  { intros f Hf. rewrite (Hperm futures) in Hf.
    apply list_elem_of_fmap in Hf as (u & -> & _). apply extract_total. }
  exists (omap record_of (as_completed futures)). split.
  - by rewrite (collect_result _ _ _ _ Hok).
  - intros r. rewrite (Hperm futures), list_elem_of_omap. split.
    + intros (f & Hf & Hr). apply list_elem_of_fmap in Hf as (u & -> & Hu).
      exists u. split; [done|]. unfold record_of in Hr.
      destruct (result (extract_product_data _ _ s u)) as [[r'|]|]; congruence.
    + intros (u & Hu & Hr). exists (extract_product_data json_loads urljoin s u).
      split; [by apply list_elem_of_fmap_2|]. unfold record_of. by rewrite Hr.
Qed.

(** C5.  A record read from a page without the description container
    has "N/A" as its description, and every returned record is read
    from the page served at its source URL.  No exception leaves an
    extraction: it returns a value in every case, the absent one when
    the body of its [try] raises; and the batch, whatever the order in
    which the tasks finish, ends without raising and holds exactly the
    records of the candidates whose extraction returned one. *)
Theorem C5_missing_description_and_contained_exceptions
    json_loads urljoin as_completed (s : session) :
  completion_order as_completed ->
  (forall page url r,
     scrape json_loads urljoin page url = Ok r ->
     description_container page = None -> Description r = NA)
  /\ (forall dutch_url r,
        result (extract_product_data json_loads urljoin s dutch_url) = Ok (Some r) ->
        exists resp, s (Source_URL r) = Ok resp /\
          scrape json_loads urljoin (body resp) (Source_URL r) = Ok r)
  /\ (forall dutch_url, exists data,
        result (extract_product_data json_loads urljoin s dutch_url) = Ok data)
  /\ (forall dutch_url e,
        result (extract_body json_loads urljoin s dutch_url) = Raise e ->
        result (extract_product_data json_loads urljoin s dutch_url) = Ok None)
  /\ (forall urls total, exists results,
        result (collect (as_completed
                           (map (extract_product_data json_loads urljoin s) urls))
                  total [] 0) = Ok results /\
        forall r, r ∈ results <->
          exists u, u ∈ urls /\
            result (extract_product_data json_loads urljoin s u) = Ok (Some r)).
Proof.
  intros Hperm. split; [|split; [|split; [|split]]].
  - intros page url r Hsc Hnone. unfold scrape in Hsc.
    unfold description_container in Hnone. rewrite Hnone in Hsc.
    destruct (match truthy_href (find "a" [("rel", "productImage")] page) with
              | Some href => urljoin BASE_URL href
              | None => Ok "N/A"
              end) as [img|e]; simpl in Hsc; [|done].
    destruct (pdf_link_of urljoin page) as [pdf|e]; simpl in Hsc; [|done].
    by injection Hsc as <-.
  - intros dutch_url r H.
    destruct (extract_some_inv _ _ _ _ _ H) as (resp & Hs & _ & Hsc). eauto.
  - intros dutch_url. apply extract_total.
  - intros dutch_url e H. unfold extract_product_data.
    by rewrite result_try_except, H.
  - intros urls total. by apply batch_records.
Qed.

Lemma C5_witness :
  exists results,
    result (collect (rev (map (extract_product_data sample_loads sample_urljoin
                                 sample_site)
                            [nl_prod1_url; nl_blog_url; nl_prod2_url]))
              3 [] 0) = Ok results /\
    forall r, r ∈ results <->
      exists u, u ∈ [nl_prod1_url; nl_blog_url; nl_prod2_url] /\
        result (extract_product_data sample_loads sample_urljoin sample_site u)
        = Ok (Some r).
Proof.
  apply (C5_missing_description_and_contained_exceptions
           sample_loads sample_urljoin (@rev _) sample_site).
  intros futures. symmetry. apply Permutation_rev.
Defined.

(** ** The product code *)

(** The loop body finds a code in a script block exactly when the block,
    read as the specification describes, has a part number. *)
Lemma read_script_spec json_loads (script : tag) :
  match read_script json_loads script with
  | Ok (Some found) => Some found
  | _ => None
  end = spec_parsed json_loads script ≫= spec_part_number.
Proof.
  unfold read_script, spec_parsed.
  destruct (loads_string json_loads (tag_string script)) as [data|e]; [|done].
  assert (Hobj : forall d,
    match (has_mpn ← contains "mpn" d;
           if (has_mpn : bool) then
             code ← subscript d "mpn"; Ok (Some code)
           else
             has_sku ← contains "sku" d;
             if (has_sku : bool) then
               code ← subscript d "sku"; Ok (Some code)
             else Ok None) with
    | Ok (Some found) => Some found
    | _ => None
    end = spec_part_number d).
  { intros d. destruct d as [| | | |str|items|fields]; try done.
    - simpl. destruct (str_in "mpn" str); [done|].
      simpl. by destruct (str_in "sku" str).
    - simpl. destruct (existsb (is_str "mpn") items); [done|].
      simpl. by destruct (existsb (is_str "sku") items).
    - simpl. destruct (lookup_field "mpn" fields) as [v|]; [done|].
      simpl. by destruct (lookup_field "sku" fields). }
  destruct data as [| | | |str|items|fields];
    try (cbn [mbind outcome_bind is_list option_bind]; apply Hobj).
  cbn [is_list first_item]. destruct items as [|x items]; [done|].
  cbn [getitem lookup list_lookup mbind outcome_bind head option_bind].
  apply Hobj.
Qed.

(** The loop over the script blocks returns the first match, and leaves
    the code as it was when there is none. *)
Lemma scan_scripts_spec json_loads (scripts : list tag) (code : json) :
  scan_scripts json_loads scripts code
  = default code (spec_code_of_scripts json_loads scripts).
Proof.
  unfold spec_code_of_scripts.
  induction scripts as [|script rest IH]; [done|].
  cbn [scan_scripts omap list_omap]. rewrite <- read_script_spec.
  destruct (read_script json_loads script) as [[found|]|e]; simpl; done.
Qed.

Lemma product_code_cases json_loads (page : soup) :
  product_code json_loads page =
  match code_container page with
  | Some div =>
      if String.eqb (get_text EmptyString true div) "N/A"
      then default (JStr "N/A")
             (spec_code_of_scripts json_loads (ld_json_scripts page))
      else JStr (get_text EmptyString true div)
  | None =>
      default (JStr "N/A")
        (spec_code_of_scripts json_loads (ld_json_scripts page))
  end.
Proof.
  unfold product_code, code_container, ld_json_scripts.
  destruct (find "div" _ page) as [div|].
  - destruct (String.eqb (get_text EmptyString true div) "N/A") eqn:E; [|done].
    apply String.eqb_eq in E. rewrite E. apply scan_scripts_spec.
  - simpl. apply scan_scripts_spec.
Qed.

Lemma scrape_product_code json_loads urljoin (page : soup) url r :
  scrape json_loads urljoin page url = Ok r ->
  Product_Code r = product_code json_loads page.
Proof.
  unfold scrape.
  destruct (match truthy_href (find "a" [("rel", "productImage")] page) with
            | Some href => urljoin BASE_URL href
            | None => Ok "N/A"
            end) as [img|e]; simpl; [|done].
  destruct (pdf_link_of urljoin page) as [pdf|e]; simpl; [|done].
  by intros [= <-].
Qed.

(** C6.  When the page has no product-code container, the code of the
    record is the first match across the structured-data script blocks
    in document order, where a block is parsed, replaced by its first
    element if it is a sequence, and matches with its "mpn" field if
    present, else with its "sku" field if present; it is "N/A" when no
    block matches.  A block that fails to parse is skipped: the scan
    goes on with the next one. *)
Theorem C6_code_from_structured_data json_loads urljoin (page : soup) :
  code_container page = None ->
  product_code json_loads page
  = default (JStr NA) (spec_code_of_scripts json_loads (ld_json_scripts page))
  /\ (forall url r,
        scrape json_loads urljoin page url = Ok r ->
        Product_Code r
        = default (JStr NA)
            (spec_code_of_scripts json_loads (ld_json_scripts page)))
  /\ (forall script rest code e,
        loads_string json_loads (tag_string script) = Raise e ->
        scan_scripts json_loads (script :: rest) code
        = scan_scripts json_loads rest code).
Proof.
  intros Hnone.
  assert (Hcode : product_code json_loads page
                  = default (JStr NA)
                      (spec_code_of_scripts json_loads (ld_json_scripts page)))
    by (by rewrite product_code_cases, Hnone).
  split; [done|]. split.
  - intros url r Hsc. by rewrite (scrape_product_code _ _ _ _ _ Hsc).
  - intros script rest code e Hfail. cbn [scan_scripts].
    unfold read_script. by rewrite Hfail.
Qed.

Lemma C6_witness :
  product_code sample_loads nl_prod2_page = JStr "SKU-7" /\
  spec_code_of_scripts sample_loads (ld_json_scripts nl_prod2_page)
  = Some (JStr "SKU-7").
Proof.
  split; [|by vm_compute].
  destruct (C6_code_from_structured_data sample_loads sample_urljoin
              nl_prod2_page) as [-> _].
  - vm_compute. reflexivity.
  - vm_compute. reflexivity.
Defined.

(** C9.  When the product-code container exists, its stripped text is
    the code only if it differs from "N/A"; when it reads "N/A" the
    script blocks are consulted as if the container were absent, and the
    code comes from the structured data when a block matches. *)
Theorem C9_container_reading_NA_falls_back json_loads (page : soup) div :
  code_container page = Some div ->
  (get_text EmptyString true div = NA ->
   product_code json_loads page
   = default (JStr NA)
       (spec_code_of_scripts json_loads (ld_json_scripts page)))
  /\ (get_text EmptyString true div <> NA ->
      product_code json_loads page = JStr (get_text EmptyString true div)).
Proof.
  intros Hdiv. rewrite product_code_cases, Hdiv. split.
  - intros ->. done.
  - intros Hne. apply String.eqb_neq in Hne. unfold NA in Hne. by rewrite Hne.
Qed.

Lemma C9_witness :
  product_code sample_loads en_prod1_page = JStr "DM-100".
Proof.
  destruct (find "div" [("class", "zl_product_list_code")] en_prod1_page)
    as [div|] eqn:Hdiv; [|by vm_compute in Hdiv].
  destruct (C9_container_reading_NA_falls_back sample_loads en_prod1_page div Hdiv)
    as [Hna _].
  rewrite Hna.
  - vm_compute. reflexivity.
  - vm_compute in Hdiv. injection Hdiv as <-. vm_compute. reflexivity.
Defined.

(** ** The report *)

Ltac differs := let H := fresh in intros H; vm_compute in H; discriminate H.

Lemma link_request_eqb (row col : nat) (value : string) :
  link_request row col value
  = if negb (String.eqb value "N/A")
    then Hyperlink row col value (Format "blue" 1) value
    else PlainText row col "N/A".
Proof.
  unfold link_request, NA. case_decide as H.
  - by subst.
  - apply String.eqb_neq in H. by rewrite H.
Qed.

Lemma link_request_hyperlink (row col : nat) (value : string) :
  value <> NA ->
  link_request row col value = Hyperlink row col value (Format "blue" 1) value.
Proof. intros H. unfold link_request. by case_decide. Qed.

Lemma link_request_marker (row col : nat) (value : string) :
  value = NA -> link_request row col value = PlainText row col NA.
Proof. intros H. unfold link_request. by case_decide. Qed.

Lemma link_request_is_hyperlink (row col : nat) (value : string) :
  is_hyperlink (link_request row col value) <-> value <> NA.
Proof. unfold link_request. case_decide; simpl; tauto. Qed.

(** The loop over the rows makes the link requests of the records, in
    the order of the records. *)
Lemma write_links_requests (lib : spreadsheet) (results : list record) :
  forall n (wb : book lib),
    write_links lib (Format "blue" 1) 3 4
      (map (fun r => (Image_Link r, PDF_Link r)) results) n wb
    = perform_all lib
        (concat (imap (fun i r => [link_request (S (n + i)) 3 (Image_Link r);
                                   link_request (S (n + i)) 4 (PDF_Link r)])
                   results)) wb.
Proof.
  induction results as [|r rest IH]; intros n wb; [done|].
  rewrite imap_cons. cbn [map write_links concat app perform_all].
  rewrite !link_request_eqb. replace (S (n + 0)) with (n + 1) by lia.
  assert (Hrest : forall wb',
            write_links lib (Format "blue" 1) 3 4
              (map (fun r => (Image_Link r, PDF_Link r)) rest) (n + 1) wb'
            = perform_all lib
                (concat (imap ((fun i r =>
                                  [link_request (S (n + i)) 3 (Image_Link r);
                                   link_request (S (n + i)) 4 (PDF_Link r)])
                               ∘ S) rest)) wb').
  { intros wb'. rewrite IH. do 2 f_equal. apply imap_ext.
    intros i x _. simpl. by replace (n + 1 + i) with (n + S i) by lia. }
  destruct (negb (Image_Link r =? "N/A")%string),
           (negb (PDF_Link r =? "N/A")%string); cbn [perform];
    (match goal with
     | |- (?first ≫= _) = _ => destruct first as [wb1|e]
     end; cbn [mbind outcome_bind]; [|done]);
    (match goal with
     | |- (?second ≫= _) = _ => destruct second as [wb2|e]
     end; cbn [mbind outcome_bind]; [|done]);
    apply Hrest.
Qed.

(** The export of a non-empty collection comes to the report. *)
Lemma export_report (lib : spreadsheet) (results : list record) :
  results <> [] -> result (export lib results) = report lib results.
Proof.
  destruct results as [|r rest]; [done|]. intros _.
  unfold export, report, link_requests.
  generalize (r :: rest). intros results.
  rewrite result_bind. cbn [print result mbind outcome_bind].
  rewrite result_bind, result_lift.
  destruct (ExcelWriter lib OUTPUT_FILE) as [wb|e];
    cbn [mbind outcome_bind]; [|done].
  rewrite result_bind, result_lift.
  destruct (to_excel lib (make_dataframe results) "Catalog" wb) as [wb1|e];
    cbn [mbind outcome_bind]; [|done].
  change (get_loc (make_dataframe results) "Image Link") with (Ok 3).
  change (get_loc (make_dataframe results) "PDF Link") with (Ok 4).
  do 2 (rewrite result_bind, result_lift; cbn [mbind outcome_bind]).
  rewrite result_bind, result_lift, (write_links_requests lib results 0 wb1).
  cbn [Nat.add].
  destruct (perform_all lib _ wb1) as [wb2|e]; cbn [mbind outcome_bind]; [|done].
  rewrite result_bind, result_lift.
  by destruct (close lib wb2).
Qed.

Lemma export_empty (lib : spreadsheet) :
  export lib []
  = Run ["No results extracted. Check if English versions exist."] (Ok None).
Proof. done. Qed.

Lemma export_saved_inv (lib : spreadsheet) (results : list record) saved :
  result (export lib results) = Ok (Some saved) -> results <> [].
Proof. by destruct results. Qed.

(** What the report writer prints for a non-empty collection: the
    announcement, and the closing line when no call of the library
    raised. *)
Lemma export_console (lib : spreadsheet) (results : list record) :
  results <> [] ->
  console (export lib results)
  = ("Exporting " +:+ str_of_nat (length results) +:+ " items to Excel...")
    :: match result (export lib results) with
       | Ok _ => ["Done! Saved to " +:+ OUTPUT_FILE]
       | Raise _ => []
       end.
Proof.
  destruct results as [|r rest]; [done|]. intros _.
  unfold export. generalize (r :: rest). intros results.
  change (get_loc (make_dataframe results) "Image Link") with (Ok 3).
  change (get_loc (make_dataframe results) "PDF Link") with (Ok 4).
  unfold lift, print.
  destruct (ExcelWriter lib OUTPUT_FILE) as [wb|e]; [|done].
  rewrite !bind_ok. cbn beta. cbn [console result app].
  destruct (to_excel lib (make_dataframe results) "Catalog" wb) as [wb1|e];
    [|done].
  rewrite !bind_ok. cbn beta. cbn [console result app].
  destruct (write_links lib _ 3 4 _ 0 wb1) as [wb2|e]; [|done].
  rewrite !bind_ok. cbn beta. cbn [console result app].
  by destruct (close lib wb2).
Qed.

(** An exception of the library leaves the export: nothing is saved
    and the closing line is not printed. *)
Lemma export_library_error :
  export missing_engine [linked_record]
  = Run ["Exporting 1 items to Excel..."]
        (Raise (Exception "No module named 'xlsxwriter'")).
Proof. vm_compute. reflexivity. Qed.

(** The two requests for the record at index [i]. *)
Lemma pairs_lookup {A B} (f g : nat -> A -> B) (l : list A) :
  forall k i x,
    l !! i = Some x ->
    concat (imap (fun j y => [f (k + j) y; g (k + j) y]) l) !! (2 * i)
    = Some (f (k + i) x)
    /\ concat (imap (fun j y => [f (k + j) y; g (k + j) y]) l) !! (2 * i + 1)
       = Some (g (k + i) x).
Proof.
  induction l as [|y l IH]; intros k i x Hi; [done|].
  rewrite imap_cons. cbn [concat app].
  destruct i as [|i].
  - injection Hi as ->. rewrite Nat.add_0_r. by split.
  - replace (2 * S i) with (S (S (2 * i))) by lia.
    replace (S (S (2 * i)) + 1) with (S (S (2 * i + 1))) by lia.
    cbn [lookup list_lookup].
    rewrite (imap_ext _ (fun j y => [f (S k + j) y; g (S k + j) y]))
      by (intros j z _; simpl; by replace (k + S j) with (S (k + j)) by lia).
    replace (k + S i) with (S k + i) by lia. by apply IH.
Qed.

Lemma pairs_length {A B} (f g : nat -> A -> B) (l : list A) :
  forall k,
    length (concat (imap (fun j y => [f (k + j) y; g (k + j) y]) l))
    = 2 * length l.
Proof.
  induction l as [|y l IH]; intros k; [done|].
  rewrite imap_cons. cbn [concat app length].
  rewrite (imap_ext _ (fun j y => [f (S k + j) y; g (S k + j) y]))
    by (intros j z _; simpl; by replace (k + S j) with (S (k + j)) by lia).
  rewrite IH. lia.
Qed.

Lemma link_requests_lookup (results : list record) i r :
  results !! i = Some r ->
  link_requests results !! (2 * i)
  = Some (link_request (S i) 3 (Image_Link r))
  /\ link_requests results !! (2 * i + 1)
     = Some (link_request (S i) 4 (PDF_Link r)).
Proof.
  intros Hi.
  exact (pairs_lookup (fun j y => link_request (S j) 3 (Image_Link y))
           (fun j y => link_request (S j) 4 (PDF_Link y)) results 0 i r Hi).
Qed.

Lemma link_requests_length (results : list record) :
  length (link_requests results) = 2 * length results.
Proof.
  exact (pairs_length (fun j y => link_request (S j) 3 (Image_Link y))
           (fun j y => link_request (S j) 4 (PDF_Link y)) results 0).
Qed.

(** C7, the claim as stated, fails: whether a cell becomes a hyperlink
    is the spreadsheet library's decision, not the report writer's.
    With a library that, like xlsxwriter, ignores a URL of more than
    2079 characters, the file saved for a record whose image link has
    2100 characters has the record's title and the marker of its
    document link in row 1, and no hyperlink, indeed no cell at all, in
    the image column of that row. *)
Lemma C7_counterexample :
  exists saved,
    result (export sample_xlsxwriter [long_link_record]) = Ok (Some saved) /\
    Image_Link long_link_record <> NA /\
    String.length (Image_Link long_link_record) = 2100 /\
    cells saved !! (1, 1) = Some (StringCell "Kabelhaspel") /\
    cells saved !! (1, 4) = Some (StringCell "N/A") /\
    cells saved !! (1, 3) = None.
Proof.
  eexists. split; [vm_compute; reflexivity|].
  split; [differs|].
  repeat split; vm_compute; reflexivity.
Qed.

(** C7 (amended).  For a non-empty collection the report writer opens
    the writer on [OUTPUT_FILE], has the frame of the records written
    to the sheet "Catalog", then makes two requests for every record,
    in the order of the records, and has the file saved; an exception
    of the library ends this.  For the record at index [i] the requests
    concern row [i + 1] and the columns 3 and 4, the positions of
    "Image Link" and "PDF Link".  For a link other than "N/A" the
    request is [write_url] with the link as target and as display text,
    in the blue underlined format; for a link equal to "N/A" it is
    [write_string] with the text "N/A". *)
Theorem C7_link_cells_requested (lib : spreadsheet) (results : list record) :
  results <> [] ->
  result (export lib results) = report lib results
  /\ get_loc (make_dataframe results) "Image Link" = Ok 3
  /\ get_loc (make_dataframe results) "PDF Link" = Ok 4
  /\ length (link_requests results) = 2 * length results
  /\ forall i r, results !! i = Some r ->
       link_requests results !! (2 * i)
       = Some (link_request (S i) 3 (Image_Link r))
       /\ link_requests results !! (2 * i + 1)
          = Some (link_request (S i) 4 (PDF_Link r))
       /\ (Image_Link r <> NA ->
           link_request (S i) 3 (Image_Link r)
           = Hyperlink (S i) 3 (Image_Link r) (Format "blue" 1) (Image_Link r))
       /\ (Image_Link r = NA ->
           link_request (S i) 3 (Image_Link r) = PlainText (S i) 3 NA)
       /\ (PDF_Link r <> NA ->
           link_request (S i) 4 (PDF_Link r)
           = Hyperlink (S i) 4 (PDF_Link r) (Format "blue" 1) (PDF_Link r))
       /\ (PDF_Link r = NA ->
           link_request (S i) 4 (PDF_Link r) = PlainText (S i) 4 NA).
Proof.
  intros Hne. split; [by apply export_report|].
  split; [done|]. split; [done|]. split; [apply link_requests_length|].
  intros i r Hi. destruct (link_requests_lookup _ _ _ Hi) as [Himg Hpdf].
  repeat split; try done;
    auto using link_request_hyperlink, link_request_marker.
Qed.

Lemma C7_witness :
  result (export sample_xlsxwriter [linked_record; bare_record])
  = report sample_xlsxwriter [linked_record; bare_record]
  /\ link_requests [linked_record; bare_record] !! 0
     = Some (Hyperlink 1 3 "https://example.com/a.jpg" (Format "blue" 1)
               "https://example.com/a.jpg")
  /\ link_requests [linked_record; bare_record] !! 2
     = Some (PlainText 2 3 "N/A").
Proof.
  destruct (C7_link_cells_requested sample_xlsxwriter
              [linked_record; bare_record]) as (Hexport & _ & _ & _ & Hrows);
    [discriminate|].
  split; [exact Hexport|]. split.
  - destruct (Hrows 0 linked_record eq_refl) as (Himg & _ & Hurl & _).
    rewrite (Hurl ltac:(differs)) in Himg. exact Himg.
  - destruct (Hrows 1 bare_record eq_refl) as (Himg & _ & _ & Hna & _).
    rewrite (Hna eq_refl) in Himg. exact Himg.
Defined.

(** ** main *)

Lemma completed_tasks_return json_loads urljoin as_completed (s : session)
    (urls : list string) :
  completion_order as_completed ->
  forall f,
    f ∈ as_completed (map (extract_product_data json_loads urljoin s) urls) ->
    exists data, result f = Ok data.
Proof.
  intros Hperm f Hf. rewrite (Hperm _) in Hf.
  apply list_elem_of_fmap in Hf as (u & -> & _). apply extract_total.
Qed.

(** What [main] comes to: nothing when the harvest is empty, else the
    export of the records of the tasks, in completion order. *)
Lemma main_result lib json_loads urljoin list_of_set as_completed (s : session) :
  completion_order as_completed ->
  exists dutch_urls,
    result (fetch_sitemap_urls list_of_set s) = Ok dutch_urls /\
    result (main lib json_loads urljoin list_of_set as_completed s)
    = match dutch_urls with
      | [] => Ok None
      | _ =>
          result (export lib
                    (omap record_of
                       (as_completed
                          (map (extract_product_data json_loads urljoin s)
                             dutch_urls))))
      end.
Proof.
  intros Hperm. destruct (fetch_total list_of_set s) as [urls Hurls].
  exists urls. split; [done|].
  unfold main. rewrite result_bind, Hurls. cbn [mbind outcome_bind].
  destruct urls as [|u rest]; [done|].
  rewrite !result_bind. cbn [print result mbind outcome_bind].
  rewrite (collect_result _ _ _ _
             (completed_tasks_return json_loads urljoin _ s (u :: rest) Hperm)).
  done.
Qed.

(** What the main thread prints when the harvest is not empty. *)
Lemma main_console lib json_loads urljoin list_of_set as_completed
    (s : session) urls :
  completion_order as_completed ->
  result (fetch_sitemap_urls list_of_set s) = Ok urls -> urls <> [] ->
  console (main lib json_loads urljoin list_of_set as_completed s)
  = console (fetch_sitemap_urls list_of_set s)
    ++ ["Starting extraction for " +:+ str_of_nat (length urls)
        +:+ " items (Dutch -> English)..."]
    ++ map (progress_line (length urls))
         (List.filter (fun k => k mod 10 =? 0) (seq 1 (length urls)))
    ++ console (export lib
                  (omap record_of
                     (as_completed
                        (map (extract_product_data json_loads urljoin s)
                           urls)))).
Proof.
  intros Hperm Hurls Hne.
  pose proof (completed_tasks_return json_loads urljoin _ s urls Hperm) as Hok.
  unfold main. rewrite console_bind, Hurls. f_equal.
  destruct urls as [|u rest]; [done|].
  rewrite console_bind. cbn [print console result app]. f_equal.
  rewrite console_bind, (collect_result _ _ _ _ Hok),
    (collect_console _ _ _ _ Hok).
  rewrite (Permutation_length (Hperm _)), length_map. done.
Qed.

(** The records of the finished tasks are those of the URLs whose
    extraction returned one. *)
Lemma completed_records json_loads urljoin as_completed (s : session)
    (urls : list string) r :
  completion_order as_completed ->
  r ∈ omap record_of
        (as_completed (map (extract_product_data json_loads urljoin s) urls))
  <-> exists u, u ∈ urls /\
        result (extract_product_data json_loads urljoin s u) = Ok (Some r).
Proof.
  intros Hperm.
  rewrite (omap_Permutation _ _ _ (Hperm _)), list_elem_of_omap. split.
  - intros (f & Hf & Hr). apply list_elem_of_fmap in Hf as (u & -> & Hu).
    exists u. split; [done|]. unfold record_of in Hr.
    destruct (result (extract_product_data _ _ s u)) as [[r'|]|]; congruence.
  - intros (u & Hu & Hr).
    exists (extract_product_data json_loads urljoin s u).
    split; [by apply list_elem_of_fmap_2|]. unfold record_of. by rewrite Hr.
Qed.

Lemma no_records json_loads urljoin as_completed (s : session)
    (urls : list string) :
  completion_order as_completed ->
  (forall u, u ∈ urls ->
     result (extract_product_data json_loads urljoin s u) = Ok None) ->
  omap record_of
    (as_completed (map (extract_product_data json_loads urljoin s) urls)) = [].
Proof.
  intros Hperm Hnone.
  destruct (omap record_of _) as [|r others] eqn:E; [done|].
  assert (Hr : r ∈ omap record_of
                 (as_completed
                    (map (extract_product_data json_loads urljoin s) urls)))
    by (rewrite E; left).
  apply completed_records in Hr as (u & Hu & Hr); [|done].
  rewrite (Hnone u Hu) in Hr. discriminate.
Qed.

(** C8.  With an empty collection the report writer prints its
    diagnostic and saves nothing, without raising; it saves a file only
    for a non-empty collection.  So when no extraction of a harvested
    URL returns a record, [main] ends without raising and without a
    file, the diagnostic being the last line it prints; and when [main]
    saves a file, the extraction of some harvested URL returned a
    record. *)
Theorem C8_empty_results_no_file
    lib json_loads urljoin list_of_set as_completed (s : session) :
  completion_order as_completed ->
  export lib []
  = Run ["No results extracted. Check if English versions exist."] (Ok None)
  /\ (forall results saved,
        result (export lib results) = Ok (Some saved) -> results <> [])
  /\ (forall urls,
        result (fetch_sitemap_urls list_of_set s) = Ok urls -> urls <> [] ->
        (forall u, u ∈ urls ->
           result (extract_product_data json_loads urljoin s u) = Ok None) ->
        result (main lib json_loads urljoin list_of_set as_completed s)
        = Ok None
        /\ last (console (main lib json_loads urljoin list_of_set
                            as_completed s))
           = Some "No results extracted. Check if English versions exist.")
  /\ (forall saved,
        result (main lib json_loads urljoin list_of_set as_completed s)
        = Ok (Some saved) ->
        exists urls u r,
          result (fetch_sitemap_urls list_of_set s) = Ok urls /\
          u ∈ urls /\
          result (extract_product_data json_loads urljoin s u) = Ok (Some r)).
Proof.
  intros Hperm.
  destruct (main_result lib json_loads urljoin list_of_set _ s Hperm)
    as (urls & Hurls & Hmain).
  split; [done|]. split; [|split].
  - intros results saved H. by apply export_saved_inv in H.
  - intros urls' Hurls' Hne Hnone.
    assert (urls' = urls) as -> by congruence.
    pose proof (no_records _ _ _ s urls Hperm Hnone) as Hrecords.
    split.
    + rewrite Hmain. destruct urls as [|u rest]; [done|]. by rewrite Hrecords.
    + rewrite (main_console lib _ _ _ _ s urls Hperm Hurls Hne), Hrecords.
      rewrite export_empty. cbn [console].
      by rewrite !app_assoc, last_snoc.
  - intros saved H. rewrite Hmain in H. destruct urls as [|u rest]; [done|].
    apply export_saved_inv in H.
    destruct (omap record_of _) as [|r others] eqn:Hrecords; [done|].
    assert (Hr : r ∈ omap record_of
                   (as_completed (map (extract_product_data json_loads urljoin s)
                                    (u :: rest))))
      by (rewrite Hrecords; left).
    apply completed_records in Hr as (u' & Hu' & Hr); [|done].
    by exists (u :: rest), u', r.
Qed.

Lemma C8_witness :
  (result (main sample_xlsxwriter sample_loads sample_urljoin first_occurrences
             (@rev _) (sitemap_site [nl_prod1_url; nl_prod2_url]))
   = Ok None
   /\ last (console (main sample_xlsxwriter sample_loads sample_urljoin
                       first_occurrences (@rev _)
                       (sitemap_site [nl_prod1_url; nl_prod2_url])))
      = Some "No results extracted. Check if English versions exist.")
  /\ exists urls u r,
       result (fetch_sitemap_urls first_occurrences sample_site) = Ok urls /\
       u ∈ urls /\
       result (extract_product_data sample_loads sample_urljoin sample_site u)
       = Ok (Some r).
Proof.
  assert (Hrev : completion_order (@rev (M (option record))))
    by (intros futures; symmetry; apply Permutation_rev).
  split.
  - destruct (C8_empty_results_no_file sample_xlsxwriter sample_loads
                sample_urljoin first_occurrences (@rev _)
                (sitemap_site [nl_prod1_url; nl_prod2_url]) Hrev)
      as (_ & _ & Hnone & _).
    apply (Hnone [nl_prod1_url; nl_prod2_url]).
    + vm_compute. reflexivity.
    + discriminate.
    + intros u Hu.
      repeat (apply elem_of_cons in Hu as [->|Hu]; [vm_compute; reflexivity|]).
      by apply elem_of_nil in Hu.
  - destruct (C8_empty_results_no_file sample_xlsxwriter sample_loads
                sample_urljoin first_occurrences (@rev _) sample_site Hrev)
      as (_ & _ & _ & Hsaved).
    assert (exists saved,
              result (main sample_xlsxwriter sample_loads sample_urljoin
                        first_occurrences (@rev _) sample_site)
              = Ok (Some saved)) as [saved Hrun]
      by (eexists; vm_compute; reflexivity).
    exact (Hsaved saved Hrun).
Defined.

(** ** The absent marker *)

Lemma head_filter_none {A} (p q : A -> bool) (l : list A) :
  (forall x, p x = true -> q x = true) ->
  head (List.filter q l) = None -> head (List.filter p l) = None.
Proof.
  intros Hpq. induction l as [|x l IH]; [done|]. simpl.
  destruct (q x) eqn:Hq; [done|].
  destruct (p x) eqn:Hp; [|done].
  apply Hpq in Hp. congruence.
Qed.

(** Without any element of the PDF-icon class there is no document
    link. *)
Lemma pdf_link_absent urljoin (page : soup) :
  select_one_class None "fa-file-pdf" page = None ->
  pdf_link_of urljoin page = Ok "N/A".
Proof.
  intros Hnone. unfold pdf_link_of. rewrite Hnone.
  assert (select_one_class (Some "a") "fa-file-pdf" page = None) as ->; [|done].
  unfold select_one_class in *.
  eapply head_filter_none; [|exact Hnone].
  intros t Ht. by apply andb_true_iff in Ht as [_ ->].
Qed.

(** What [scrape] puts into the fields that do not depend on
    [urljoin]. *)
Lemma scrape_fields json_loads urljoin (page : soup) url r :
  scrape json_loads urljoin page url = Ok r ->
  Title r = match find "h1" [] page with
            | Some h1 => get_text EmptyString true h1
            | None => "N/A"
            end
  /\ Product_Code r = product_code json_loads page
  /\ Description r = match find "div" [("id", "omschrijving")] page with
                     | Some div => get_text (String "010" EmptyString) true div
                     | None => "N/A"
                     end
  /\ (truthy_href (find "a" [("rel", "productImage")] page) = None ->
      Image_Link r = "N/A")
  /\ pdf_link_of urljoin page = Ok (PDF_Link r)
  /\ Source_URL r = url.
Proof.
  unfold scrape. intros Hsc.
  destruct (truthy_href (find "a" [("rel", "productImage")] page))
    as [href|] eqn:Himg.
  - destruct (urljoin BASE_URL href) as [img|e]; simpl in Hsc; [|done].
    destruct (pdf_link_of urljoin page) as [pdf|e] eqn:Hpdf;
      simpl in Hsc; [|done].
    injection Hsc as <-. by repeat split.
  - simpl in Hsc.
    destruct (pdf_link_of urljoin page) as [pdf|e] eqn:Hpdf;
      simpl in Hsc; [|done].
    injection Hsc as <-. by repeat split.
Qed.

(** C10, the claim as stated, fails: a record need not have all of its
    fields populated.  A page whose title and description elements are
    present but hold no text gives a record whose title and description
    are the empty string, neither a value nor the marker. *)
Lemma C10_counterexample :
  exists r,
    result (extract_product_data sample_loads sample_urljoin blank_site
              blank_url) = Ok (Some r) /\
    Title r = EmptyString /\ Description r = EmptyString /\
    truthy (Title r) = false /\ Title r <> NA.
Proof.
  eexists. split; [vm_compute; reflexivity|].
  repeat split; try (vm_compute; reflexivity). differs.
Qed.

(** C10 (amended).  The absent marker is the one string "N/A"
    throughout.  The title, the description, the image link, the
    document link and the product code of a record are "N/A" when the
    page lacks what they are read from, and the source URL is the URL
    scraped; a title or description element that is present gives its
    stripped text, whatever that is.  The report writer compares the two
    link fields with the same string and writes the same string as the
    placeholder: of the two requests it makes for a record, the one for
    a link field is a hyperlink if and only if the field differs from
    "N/A", and the plain text "N/A" otherwise. *)
Theorem C10_one_absent_marker json_loads urljoin :
  NA = "N/A"
  /\ (forall page url r,
        scrape json_loads urljoin page url = Ok r ->
        (find "h1" [] page = None -> Title r = NA)
        /\ (forall h1, find "h1" [] page = Some h1 ->
              Title r = get_text EmptyString true h1)
        /\ (code_container page = None ->
            spec_code_of_scripts json_loads (ld_json_scripts page) = None ->
            Product_Code r = JStr NA)
        /\ (description_container page = None -> Description r = NA)
        /\ (forall div, description_container page = Some div ->
              Description r = get_text (String "010" EmptyString) true div)
        /\ (find "a" [("rel", "productImage")] page = None \/
            (exists a, find "a" [("rel", "productImage")] page = Some a /\
               (tag_get a "href" = None \/ tag_get a "href" = Some EmptyString)) ->
            Image_Link r = NA)
        /\ (select_one_class None "fa-file-pdf" page = None -> PDF_Link r = NA)
        /\ Source_URL r = url)
  /\ (forall lib results,
        results <> [] ->
        result (export lib results) = report lib results
        /\ forall i r, results !! i = Some r ->
             exists image pdf,
               link_requests results !! (2 * i) = Some image /\
               link_requests results !! (2 * i + 1) = Some pdf /\
               (is_hyperlink image <-> Image_Link r <> NA) /\
               (is_hyperlink pdf <-> PDF_Link r <> NA) /\
               (Image_Link r = NA -> image = PlainText (S i) 3 NA) /\
               (PDF_Link r = NA -> pdf = PlainText (S i) 4 NA)).
Proof.
  split; [done|]. split.
  - intros page url r Hsc.
    destruct (scrape_fields _ _ _ _ _ Hsc)
      as (Ht & Hc & Hd & Hi & Hp & Hu).
    unfold description_container, NA.
    split; [by intros E; rewrite Ht, E|].
    split; [by intros h1 E; rewrite Ht, E|].
    split.
    { intros Hnone Hscripts.
      by rewrite Hc, product_code_cases, Hnone, Hscripts. }
    split; [by intros E; rewrite Hd, E|].
    split; [by intros div E; rewrite Hd, E|].
    split; [intros Habs; apply Hi; by apply truthy_href_none|].
    split; [|done].
    intros Hnone. rewrite (pdf_link_absent _ _ Hnone) in Hp. congruence.
  - intros lib results Hne. split; [by apply export_report|].
    intros i r Hi. destruct (link_requests_lookup _ _ _ Hi) as [Himg Hpdf].
    eexists _, _. split; [exact Himg|]. split; [exact Hpdf|].
    split; [apply link_request_is_hyperlink|].
    split; [apply link_request_is_hyperlink|].
    split; apply link_request_marker.
Qed.

Lemma C10_witness :
  result (export sample_xlsxwriter [linked_record; bare_record])
  = report sample_xlsxwriter [linked_record; bare_record]
  /\ exists image pdf,
       link_requests [linked_record; bare_record] !! 2 = Some image /\
       link_requests [linked_record; bare_record] !! 3 = Some pdf /\
       (is_hyperlink image <-> Image_Link bare_record <> NA) /\
       (is_hyperlink pdf <-> PDF_Link bare_record <> NA) /\
       (Image_Link bare_record = NA -> image = PlainText 2 3 NA) /\
       (PDF_Link bare_record = NA -> pdf = PlainText 2 4 NA).
Proof.
  destruct (C10_one_absent_marker sample_loads sample_urljoin)
    as (_ & _ & Hreport).
  destruct (Hreport sample_xlsxwriter [linked_record; bare_record])
    as [Hexport Hrows]; [discriminate|].
  split; [exact Hexport|]. exact (Hrows 1 bare_record eq_refl).
Defined.

(* ===================================================================== *)
(** * Further properties of the code *)
(* ===================================================================== *)

(** ** The harvest as a whole *)

Lemma main_no_urls lib json_loads urljoin list_of_set as_completed (s : session) c :
  fetch_sitemap_urls list_of_set s = Run c (Ok []) ->
  main lib json_loads urljoin list_of_set as_completed s
  = Run (c ++ ["No URLs found. Exiting."]) (Ok None).
Proof. intros H. unfold main, mbind, M_bind. rewrite H. reflexivity. Qed.

(** X1.  When the sitemap is fetched with a status outside 400 to 599,
    [urlparse] accepts every entry that contains "/nl/" and the sitemap
    has no more than [MAX_URLS] entries, the harvester returns exactly
    the entries of the sitemap that pass the loop's tests, verbatim,
    whatever their order and however often they are listed. *)
Theorem X1_harvest_is_the_accepted_entries list_of_set (s : session) r :
  set_listing list_of_set ->
  s SITEMAP_URL = Ok r -> is_http_error (status_code r) = false ->
  (forall u, u ∈ sitemap_entries r -> str_in "/nl/" u = true ->
             exists path, urlparse_path u = Ok path) ->
  length (sitemap_entries r) <= N.to_nat MAX_URLS ->
  exists out,
    result (fetch_sitemap_urls list_of_set s) = Ok out /\
    NoDup out /\
    forall url, url ∈ out <-> url ∈ sitemap_entries r /\ accepted url.
Proof.
  intros Hlist Hs Hst Hparse Hsize.
  destruct (filter_urls_total _ [] Hparse) as [v Hf].
  destruct (filter_urls_complete _ _ _ Hf) as (_ & Hnew & Hlen).
  assert (Hfit : length (list_of_set v) <= N.to_nat MAX_URLS).
  { rewrite (listing_length _ _ Hlist).
    assert (length (remove_dups v) <= length v).
    { apply submseteq_length, NoDup_submseteq; [apply NoDup_remove_dups|].
      intros x Hx. exact (proj1 (elem_of_remove_dups _ _) Hx). }
    change (length v <= length (sitemap_entries r)) in Hlen. lia. }
  exists (list_of_set v). split.
  - rewrite (fetch_returns _ _ _ _ Hs Hst Hf). by rewrite take_ge.
  - split; [apply Hlist|]. intros url. rewrite (proj2 (Hlist v)). split.
    + intros Hin.
      destruct (filter_urls_inv _ _ _ Hf url Hin) as [Hnil|[? ?]]; [|done].
      by apply elem_of_nil in Hnil.
    + intros [Hin Hacc]. auto.
Qed.

Lemma X1_witness :
  exists out,
    result (fetch_sitemap_urls first_occurrences sample_site) = Ok out /\
    NoDup out /\
    forall url,
      url ∈ out <->
      url ∈ [nl_prod1_url; nl_blog_url; nl_prod1_url; nl_prod2_url]
      /\ accepted url.
Proof.
  apply (X1_harvest_is_the_accepted_entries first_occurrences sample_site
           (ok_response SITEMAP_URL
              (sitemap_of [nl_prod1_url; nl_blog_url; nl_prod1_url;
                           nl_prod2_url]))).
  - apply first_occurrences_listing.
  - vm_compute. reflexivity.
  - vm_compute. reflexivity.
  - intros u Hu _.
    change (u ∈ [nl_prod1_url; nl_blog_url; nl_prod1_url; nl_prod2_url]) in Hu.
    repeat (apply elem_of_cons in Hu as [->|Hu];
            [eexists; vm_compute; reflexivity|]).
    by apply elem_of_nil in Hu.
  - vm_compute. lia.
Defined.

(** X2.  One sitemap entry that contains "/nl/" and on which [urlparse]
    raises empties the whole harvest: the harvester returns no URL at
    all, whatever the other entries are, and [main] saves no file. *)
Theorem X2_malformed_entry_empties_harvest
    lib json_loads urljoin list_of_set as_completed (s : session) r u e :
  s SITEMAP_URL = Ok r ->
  u ∈ sitemap_entries r -> str_in "/nl/" u = true ->
  urlparse_path u = Raise e ->
  result (fetch_sitemap_urls list_of_set s) = Ok [] /\
  result (main lib json_loads urljoin list_of_set as_completed s) = Ok None.
Proof.
  intros Hs Hu Hnl Hraise.
  assert (Hfetch : result (fetch_sitemap_urls list_of_set s) = Ok []).
  { destruct (is_http_error (status_code r)) eqn:Hst.
    - by apply (fetch_http_error _ _ r).
    - destruct (filter_urls_raises _ [] _ _ Hu Hnl Hraise) as [e' Hf].
      by apply (fetch_urlparse_fails _ _ r e'). }
  split; [done|].
  unfold main. by rewrite result_bind, Hfetch.
Qed.

Lemma X2_witness :
  result (fetch_sitemap_urls first_occurrences
            (sitemap_site [nl_prod1_url; broken_host_url; nl_prod2_url]))
  = Ok [] /\
  result (main sample_xlsxwriter sample_loads sample_urljoin first_occurrences (@rev _)
            (sitemap_site [nl_prod1_url; broken_host_url; nl_prod2_url]))
  = Ok None.
Proof.
  apply (X2_malformed_entry_empties_harvest _ _ _ _ _ _
           (ok_response SITEMAP_URL
              (sitemap_of [nl_prod1_url; broken_host_url; nl_prod2_url]))
           broken_host_url (Exception "Invalid IPv6 URL")).
  - vm_compute. reflexivity.
  - right. left.
  - vm_compute. reflexivity.
  - vm_compute. reflexivity.
Defined.

(** X3.  When the request for the sitemap raises, or is answered with a
    status from 400 to 599, the run ends there: the console shows the
    line announcing the fetch, the error and "No URLs found. Exiting.",
    no extraction is started and no file is saved. *)
Theorem X3_sitemap_failure_ends_run
    lib json_loads urljoin list_of_set as_completed (s : session) :
  (exists e, s SITEMAP_URL = Raise e) \/
  (exists r, s SITEMAP_URL = Ok r /\ is_http_error (status_code r) = true) ->
  exists msg,
    main lib json_loads urljoin list_of_set as_completed s
    = Run [fetching_line; "Error fetching sitemap: " +:+ msg;
           "No URLs found. Exiting."] (Ok None)
    /\ forall e, s SITEMAP_URL = Raise e -> msg = exn_msg e.
Proof.
  intros [[e Hs]|(r & Hs & Hst)].
  - exists (exn_msg e). split; [|intros e' He'; congruence].
    apply (main_no_urls _ _ _ _ _ _
             [fetching_line; "Error fetching sitemap: " +:+ exn_msg e]).
    unfold fetch_sitemap_urls, session_get, lift, try_except, mbind, M_bind.
    simpl. rewrite Hs. reflexivity.
  - destruct (raise_for_status_error r Hst) as [e He].
    exists (exn_msg e). split; [|intros e' He'; congruence].
    apply (main_no_urls _ _ _ _ _ _
             [fetching_line; "Error fetching sitemap: " +:+ exn_msg e]).
    unfold fetch_sitemap_urls, session_get, lift, try_except, mbind, M_bind.
    simpl. rewrite Hs. simpl. rewrite He. reflexivity.
Qed.

Lemma X3_witness :
  exists msg,
    main sample_xlsxwriter sample_loads sample_urljoin first_occurrences (@rev _)
      missing_sitemap_site
    = Run [fetching_line; "Error fetching sitemap: " +:+ msg;
           "No URLs found. Exiting."] (Ok None)
    /\ forall e, missing_sitemap_site SITEMAP_URL = Raise e -> msg = exn_msg e.
Proof.
  apply X3_sitemap_failure_ends_run. right.
  exists (Response 404 "Not Found" SITEMAP_URL []).
  split; vm_compute; reflexivity.
Defined.

Lemma blacklist_is_lowercase (w : string) : w ∈ BLACKLIST -> py_lower w = w.
Proof.
  intros Hw.
  assert (H : forallb (fun w => String.eqb (py_lower w) w) BLACKLIST = true)
    by (vm_compute; reflexivity).
  rewrite forallb_forall in H. apply String.eqb_eq, H.
  by apply list_elem_of_In.
Qed.

(** X4.  The blacklist is matched without regard to letter case: of no
    URL the harvester returns does the last path segment, or the second
    one, equal a blacklist entry when case is ignored. *)
Theorem X4_blacklist_ignores_case list_of_set (s : session) out url :
  set_listing list_of_set ->
  result (fetch_sitemap_urls list_of_set s) = Ok out ->
  url ∈ out ->
  exists parts,
    url_segments url = Ok parts /\
    forall w, w ∈ BLACKLIST ->
      ~ eq_ignoring_case (last_item parts) w /\
      ~ eq_ignoring_case (item 1 parts) w.
Proof.
  intros Hlist H Hin.
  destruct (fetch_accepted _ _ _ _ Hlist H Hin)
    as (_ & parts & Hp & _ & H1 & H2).
  exists parts. split; [done|]. intros w Hw.
  apply str_in_list_false in H1, H2. unfold eq_ignoring_case.
  rewrite (blacklist_is_lowercase w Hw). split; congruence.
Qed.

Lemma X4_witness :
  exists parts,
    url_segments nl_prod2_url = Ok parts /\
    forall w, w ∈ BLACKLIST ->
      ~ eq_ignoring_case (last_item parts) w /\
      ~ eq_ignoring_case (item 1 parts) w.
Proof.
  apply (X4_blacklist_ignores_case first_occurrences sample_site
           [nl_prod1_url; nl_prod2_url]).
  - apply first_occurrences_listing.
  - vm_compute. reflexivity.
  - right. left.
Defined.

(** ** Extractions that yield nothing *)

(** The line the handler of the extractor prints. *)
Lemma extract_handles json_loads urljoin (s : session) dutch_url c e :
  extract_body json_loads urljoin s dutch_url = Run c (Raise e) ->
  extract_product_data json_loads urljoin s dutch_url
  = Run (c ++ ["Error scraping " +:+ dutch_url +:+ " -> English: "
               +:+ exn_msg e]) (Ok None).
Proof.
  intros H. unfold extract_product_data. rewrite H, try_except_raise.
  reflexivity.
Qed.

(** X5.  When the request for the candidate page raises, or is answered
    with any status other than 200, the extraction returns nothing and
    prints exactly one line: the error, or the failed URL with the
    status.  The content of the answer plays no part. *)
Theorem X5_failed_candidate_fetch json_loads urljoin (s : session) dutch_url :
  (forall r, s dutch_url = Ok r -> status_code r <> 200%Z) ->
  exists line,
    extract_product_data json_loads urljoin s dutch_url = Run [line] (Ok None)
    /\ (forall e, s dutch_url = Raise e ->
          line = "Error scraping " +:+ dutch_url +:+ " -> English: "
                 +:+ exn_msg e)
    /\ (forall r, s dutch_url = Ok r ->
          line = "DEBUG: Failed to fetch Dutch URL " +:+ dutch_url +:+ " ("
                 +:+ str_of_Z (status_code r) +:+ ")").
Proof.
  intros Hnot. destruct (s dutch_url) as [r|e] eqn:Hs.
  - eexists. split; [|split; [done|by intros r' [= <-]]].
    specialize (Hnot r eq_refl). apply Z.eqb_neq in Hnot.
    unfold extract_product_data, extract_body, session_get, lift.
    rewrite Hs, bind_ok. cbn beta. rewrite Hnot. reflexivity.
  - eexists. split; [|split; [by intros e' [= <-]|done]].
    apply (extract_handles _ _ _ _ []).
    unfold extract_body, session_get, lift. by rewrite Hs, bind_raise.
Qed.

Lemma X5_witness :
  exists line,
    extract_product_data sample_loads sample_urljoin sample_site nl_blog_url
    = Run [line] (Ok None)
    /\ (forall e, sample_site nl_blog_url = Raise e ->
          line = "Error scraping " +:+ nl_blog_url +:+ " -> English: "
                 +:+ exn_msg e)
    /\ (forall r, sample_site nl_blog_url = Ok r ->
          line = "DEBUG: Failed to fetch Dutch URL " +:+ nl_blog_url +:+ " ("
                 +:+ str_of_Z (status_code r) +:+ ")").
Proof.
  apply X5_failed_candidate_fetch.
  intros r Hr. vm_compute in Hr. discriminate.
Defined.

(** The page and URL settled on when the candidate page has no usable
    English link. *)
Lemma resolve_without_link (s : session) dutch_url (page : soup) :
  truthy_href (find "link" [("hreflang", "en")] page) = None ->
  resolve_target s dutch_url page = Run [] (Ok (page, dutch_url)).
Proof. intros H. unfold resolve_target. by rewrite H. Qed.

(** X6.  When the candidate page names an English alternate and the
    request for it raises, the extraction returns nothing: it prints the
    error and does not fall back on the candidate page it already has
    (as it does when the alternate answers with a status other than
    200). *)
Theorem X6_alternate_request_error_drops_record
    json_loads urljoin (s : session) dutch_url r_nl link others english_url e :
  s dutch_url = Ok r_nl -> status_code r_nl = 200%Z ->
  english_links (body r_nl) = link :: others ->
  tag_get link "href" = Some english_url -> english_url <> EmptyString ->
  s english_url = Raise e ->
  extract_product_data json_loads urljoin s dutch_url
  = Run ["Error scraping " +:+ dutch_url +:+ " -> English: " +:+ exn_msg e]
        (Ok None).
Proof.
  intros Hs Hst Hlinks Hhref Hne Hen.
  apply (extract_handles _ _ _ _ []).
  unfold extract_body, session_get, lift. rewrite Hs, bind_ok. cbn beta.
  rewrite Hst. cbn [Z.eqb Pos.eqb negb].
  assert (Hresolve : resolve_target s dutch_url (body r_nl) = Run [] (Raise e)).
  { unfold resolve_target. rewrite find_english_link, Hlinks.
    change (head (link :: others)) with (Some link).
    assert (truthy_href (Some link) = Some english_url) as ->
      by (apply truthy_href_some; eauto).
    unfold session_get, lift. by rewrite Hen, bind_raise. }
  rewrite Hresolve, bind_raise. reflexivity.
Qed.

Lemma X6_witness :
  extract_product_data sample_loads sample_urljoin alternate_down_site
    nl_prod1_url
  = Run ["Error scraping " +:+ nl_prod1_url +:+ " -> English: "
         +:+ "Connection refused"] (Ok None).
Proof.
  eapply (X6_alternate_request_error_drops_record _ _ alternate_down_site
            nl_prod1_url (ok_response nl_prod1_url nl_prod1_page)
            _ _ en_prod1_url (Exception "Connection refused")).
  - vm_compute. reflexivity.
  - reflexivity.
  - vm_compute. reflexivity.
  - vm_compute. reflexivity.
  - discriminate.
  - vm_compute. reflexivity.
Defined.

Lemma scrape_image_raises json_loads urljoin (page : soup) url href e :
  truthy_href (find "a" [("rel", "productImage")] page) = Some href ->
  urljoin BASE_URL href = Raise e ->
  scrape json_loads urljoin page url = Raise e.
Proof. intros H He. unfold scrape. by rewrite H, He. Qed.

(** X7.  A product image anchor whose target [urljoin] rejects costs the
    whole record: whichever page the extraction has settled on, the
    candidate page or its English alternate, it prints the error after
    the lines printed so far and returns nothing; it does not return a
    record with "N/A" for the image link. *)
Theorem X7_rejected_image_target_drops_record
    json_loads urljoin (s : session) dutch_url r_nl c page target_url a href e :
  s dutch_url = Ok r_nl -> status_code r_nl = 200%Z ->
  resolve_target s dutch_url (body r_nl) = Run c (Ok (page, target_url)) ->
  find "a" [("rel", "productImage")] page = Some a ->
  tag_get a "href" = Some href -> href <> EmptyString ->
  urljoin BASE_URL href = Raise e ->
  extract_product_data json_loads urljoin s dutch_url
  = Run (c ++ ["Error scraping " +:+ dutch_url +:+ " -> English: "
               +:+ exn_msg e]) (Ok None).
Proof.
  intros Hs Hst Hres Ha Hhref Hne He.
  apply extract_handles.
  unfold extract_body, session_get, lift. rewrite Hs, bind_ok. cbn beta.
  rewrite Hst. cbn [Z.eqb Pos.eqb negb].
  rewrite Hres, bind_ok. cbn beta iota.
  rewrite (scrape_image_raises _ _ _ _ href e).
  - unfold lift. rewrite bind_raise. cbn [console result app].
    by rewrite app_nil_r.
  - rewrite Ha. apply truthy_href_some. eauto.
  - done.
Qed.

Lemma X7_witness :
  extract_product_data sample_loads picky_urljoin bad_alternate_site
    bad_alternate_url
  = Run ([] ++ ["Error scraping " +:+ bad_alternate_url +:+ " -> English: "
                +:+ "Invalid IPv6 URL"]) (Ok None).
Proof.
  eapply (X7_rejected_image_target_drops_record _ _ bad_alternate_site
            bad_alternate_url (ok_response bad_alternate_url bad_alternate_page)
            [] bad_image_page bad_image_url
            _ "http://[broken" (Exception "Invalid IPv6 URL")).
  - vm_compute. reflexivity.
  - reflexivity.
  - vm_compute. reflexivity.
  - vm_compute. reflexivity.
  - vm_compute. reflexivity.
  - discriminate.
  - vm_compute. reflexivity.
Defined.

(** ** The link and text fields *)

(** Where a document link comes from. *)
Lemma pdf_link_cases urljoin (page : soup) pdf :
  pdf_link_of urljoin page = Ok pdf ->
  match truthy_href (select_one_class (Some "a") "fa-file-pdf" page) with
  | Some href => urljoin BASE_URL href = Ok pdf
  | None =>
      match select_one_class None "fa-file-pdf" page with
      | Some icon =>
          match truthy_href (find_parent "a" icon) with
          | Some href => urljoin BASE_URL href = Ok pdf
          | None => pdf = "N/A"
          end
      | None => pdf = "N/A"
      end
  end.
Proof.
  unfold pdf_link_of.
  destruct (truthy_href (select_one_class (Some "a") "fa-file-pdf" page));
    [done|].
  destruct (select_one_class None "fa-file-pdf" page) as [icon|];
    [|by intros [= <-]].
  destruct (truthy_href (find_parent "a" icon)); [done|by intros [= <-]].
Qed.

Lemma without_target_href (t : option tag) :
  without_target t <-> truthy_href t = None.
Proof. symmetry. apply truthy_href_none. Qed.

Lemma with_target_href (t : option tag) a href :
  t = Some a -> tag_get a "href" = Some href -> href <> EmptyString ->
  truthy_href t = Some href.
Proof. intros. apply truthy_href_some. eauto. Qed.

(** X8.  The two link fields of a record are never raw attribute
    values: each is "N/A" or what [urljoin] makes of [BASE_URL] and a
    non-empty href.  The image link comes from the first anchor with
    rel "productImage", and is "N/A" when that anchor is missing or
    has no target.  The document link comes from the first anchor of
    class "fa-file-pdf"; when that one is missing or has no target,
    from the nearest enclosing anchor of the first element of that
    class; and it is "N/A" when there is no element of that class, or
    its nearest enclosing anchor is missing or has no target. *)
Theorem X8_links_are_resolved_targets json_loads urljoin (page : soup) url r :
  scrape json_loads urljoin page url = Ok r ->
  (Image_Link r = NA \/
   exists a href,
     find "a" [("rel", "productImage")] page = Some a /\
     tag_get a "href" = Some href /\ href <> EmptyString /\
     urljoin BASE_URL href = Ok (Image_Link r))
  /\ (forall a href,
        find "a" [("rel", "productImage")] page = Some a ->
        tag_get a "href" = Some href -> href <> EmptyString ->
        urljoin BASE_URL href = Ok (Image_Link r))
  /\ (without_target (find "a" [("rel", "productImage")] page) ->
      Image_Link r = NA)
  /\ (forall a href,
        select_one_class (Some "a") "fa-file-pdf" page = Some a ->
        tag_get a "href" = Some href -> href <> EmptyString ->
        urljoin BASE_URL href = Ok (PDF_Link r))
  /\ (without_target (select_one_class (Some "a") "fa-file-pdf" page) ->
      (forall icon parent href,
         select_one_class None "fa-file-pdf" page = Some icon ->
         find_parent "a" icon = Some parent ->
         tag_get parent "href" = Some href -> href <> EmptyString ->
         urljoin BASE_URL href = Ok (PDF_Link r))
      /\ (forall icon,
            select_one_class None "fa-file-pdf" page = Some icon ->
            without_target (find_parent "a" icon) -> PDF_Link r = NA)
      /\ (select_one_class None "fa-file-pdf" page = None -> PDF_Link r = NA)).
Proof.
  intros Hsc.
  destruct (scrape_fields _ _ _ _ _ Hsc) as (_ & _ & _ & Hnone & Hpdf & _).
  apply pdf_link_cases in Hpdf.
  assert (Himg : forall a href,
            find "a" [("rel", "productImage")] page = Some a ->
            tag_get a "href" = Some href -> href <> EmptyString ->
            urljoin BASE_URL href = Ok (Image_Link r)).
  { intros a href Ha Hh Hne.
    pose proof (with_target_href _ _ _ Ha Hh Hne) as Hsome.
    unfold scrape in Hsc. rewrite Hsome in Hsc.
    destruct (urljoin BASE_URL href) as [img|e]; simpl in Hsc; [|done].
    destruct (pdf_link_of urljoin page) as [pdf|e]; simpl in Hsc; [|done].
    by injection Hsc as <-. }
  split; [|split; [done|split; [|split]]].
  - destruct (truthy_href (find "a" [("rel", "productImage")] page))
      as [href|] eqn:E; [|left; by apply Hnone].
    apply truthy_href_some in E as (a & Ha & Hh & Hne).
    right. exists a, href. eauto.
  - intros Hw. apply Hnone. by apply without_target_href.
  - intros a href Ha Hh Hne.
    by rewrite (with_target_href _ _ _ Ha Hh Hne) in Hpdf.
  - intros Hw. apply without_target_href in Hw. rewrite Hw in Hpdf.
    split; [|split].
    + intros icon parent href Hicon Hp Hh Hne. rewrite Hicon in Hpdf.
      by rewrite (with_target_href _ _ _ Hp Hh Hne) in Hpdf.
    + intros icon Hicon Hwp. apply without_target_href in Hwp.
      by rewrite Hicon, Hwp in Hpdf.
    + intros Hicon. by rewrite Hicon in Hpdf.
Qed.

Lemma X8_witness :
  exists r,
    scrape sample_loads sample_urljoin en_prod1_page en_prod1_url = Ok r /\
    sample_urljoin BASE_URL "/img/cable.jpg" = Ok (Image_Link r) /\
    sample_urljoin BASE_URL "/docs/cable.pdf" = Ok (PDF_Link r).
Proof.
  eexists. split; [vm_compute; reflexivity|].
  match goal with
  | |- context [Image_Link ?r] =>
      destruct (X8_links_are_resolved_targets sample_loads sample_urljoin
                  en_prod1_page en_prod1_url r)
        as (_ & Himg & _ & _ & Hpdf); [vm_compute; reflexivity|]
  end.
  split.
  - eapply Himg; [vm_compute; reflexivity|vm_compute; reflexivity|discriminate].
  - destruct Hpdf as (Hparent & _); [left; vm_compute; reflexivity|].
    eapply Hparent;
      [vm_compute; reflexivity|vm_compute; reflexivity
      |vm_compute; reflexivity|discriminate].
Defined.

Lemma lstrip_first (p : ascii -> bool) (s : string) :
  first_is p (lstrip p s) = false.
Proof.
  induction s as [|c rest IH]; [done|]. simpl.
  destruct (p c) eqn:E; [done|]. simpl. exact E.
Qed.

Lemma rstrip_first (p : ascii -> bool) (s : string) :
  first_is p s = false -> first_is p (rstrip p s) = false.
Proof.
  destruct s as [|c rest]; [done|]. simpl. intros Hc.
  destruct (rstrip p rest); [|done]. by rewrite Hc.
Qed.

Lemma rstrip_last (p : ascii -> bool) (s : string) :
  last_is p (rstrip p s) = false.
Proof.
  induction s as [|c rest IH]; [done|]. simpl.
  destruct (rstrip p rest) as [|d r].
  - destruct (p c) eqn:E; [done|]. simpl. exact E.
  - exact IH.
Qed.

Lemma strip_unpadded (s : string) : padded (py_strip s) = false.
Proof.
  unfold padded, py_strip, strip.
  by rewrite rstrip_first, rstrip_last by apply lstrip_first.
Qed.

Lemma append_empty (a b : string) : a +:+ b = EmptyString -> b = EmptyString.
Proof. destruct a; [done|]. simpl. discriminate. Qed.

Lemma first_is_append (p : ascii -> bool) (a b : string) :
  a <> EmptyString -> first_is p (a +:+ b) = first_is p a.
Proof. by destruct a. Qed.

Lemma last_is_append (p : ascii -> bool) (a b : string) :
  b <> EmptyString -> last_is p (a +:+ b) = last_is p b.
Proof.
  intros Hb. induction a as [|c a IH]; [done|].
  change (String c a +:+ b) with (String c (a +:+ b)).
  destruct (a +:+ b) as [|d r] eqn:E; [by apply append_empty in E|].
  exact IH.
Qed.

(** Joining non-empty texts without padding gives a text without
    padding, whatever the separator. *)
Lemma join_unpadded (sep : string) (xs : list string) :
  Forall (fun x => x <> EmptyString /\ padded x = false) xs ->
  padded (join sep xs) = false /\ (xs <> [] -> join sep xs <> EmptyString).
Proof.
  induction 1 as [|x rest [Hx Hpad] Hrest [IHpad IHne]]; [done|].
  destruct rest as [|y rest]; [done|].
  change (join sep (x :: y :: rest))
    with (x +:+ sep +:+ join sep (y :: rest)).
  specialize (IHne ltac:(done)).
  apply orb_false_iff in Hpad as [Hfirst Hlast].
  apply orb_false_iff in IHpad as [_ IHlast].
  split; [|by destruct x]. unfold padded.
  rewrite first_is_append, Hfirst by done.
  rewrite !last_is_append; [done|done|].
  intros E. by apply append_empty in E.
Qed.

Lemma get_text_unpadded (sep : string) (t : tag) :
  padded (get_text sep true t) = false.
Proof.
  unfold get_text. apply join_unpadded, Forall_forall. intros x Hx.
  apply list_elem_of_In, filter_In in Hx as [Hx Hne].
  apply in_map_iff in Hx as (s & <- & _). split; [|apply strip_unpadded].
  by destruct (py_strip s).
Qed.

(** X9.  The texts read from the page are trimmed: the title, the
    description and a product code taken from its container never begin
    or end with whitespace. *)
Theorem X9_text_fields_are_trimmed json_loads urljoin (page : soup) url r :
  scrape json_loads urljoin page url = Ok r ->
  padded (Title r) = false
  /\ padded (Description r) = false
  /\ (forall div,
        code_container page = Some div ->
        get_text EmptyString true div <> NA ->
        exists code, Product_Code r = JStr code /\ padded code = false).
Proof.
  intros Hsc.
  pose proof (scrape_product_code _ _ _ _ _ Hsc) as Hcode.
  unfold scrape in Hsc.
  destruct (match truthy_href (find "a" [("rel", "productImage")] page) with
            | Some href => urljoin BASE_URL href
            | None => Ok "N/A"
            end) as [img|e]; simpl in Hsc; [|done].
  destruct (pdf_link_of urljoin page) as [pdf|e]; simpl in Hsc; [|done].
  injection Hsc as <-. simpl in *. split; [|split].
  - destruct (find "h1" [] page); [apply get_text_unpadded|done].
  - destruct (find "div" [("id", "omschrijving")] page);
      [apply get_text_unpadded|done].
  - intros div Hdiv Hne. exists (get_text EmptyString true div).
    split; [|apply get_text_unpadded].
    rewrite product_code_cases, Hdiv.
    apply String.eqb_neq in Hne. unfold NA in Hne. by rewrite Hne.
Qed.

Lemma X9_witness :
  exists r,
    scrape sample_loads sample_urljoin en_prod1_page en_prod1_url = Ok r /\
    padded (Title r) = false /\ padded (Description r) = false.
Proof.
  eexists. split; [vm_compute; reflexivity|].
  match goal with
  | |- padded (Title ?r) = false /\ _ =>
      destruct (X9_text_fields_are_trimmed sample_loads sample_urljoin
                  en_prod1_page en_prod1_url r) as (Ht & Hd & _);
        [vm_compute; reflexivity|by split]
  end.
Defined.

(** ** The run as a whole *)

Lemma omap_length_le {A B} (f : A -> option B) (l : list A) :
  length (omap f l) <= length l.
Proof.
  induction l as [|x l IH]; [done|]. cbn [omap list_omap].
  destruct (f x); simpl; lia.
Qed.

(** X11.  Whatever the order in which the tasks finish, [main] hands to
    the report writer the records of the harvested URLs whose
    extraction returned one, each once, in some order.  With at least
    one such record the outcome of [main] is that of the writer's calls
    of the library on them; without any, [main] saves no file. *)
Theorem X11_main_exports_the_successful_records
    lib json_loads urljoin list_of_set as_completed (s : session) :
  completion_order as_completed ->
  exists urls results,
    result (fetch_sitemap_urls list_of_set s) = Ok urls /\
    results ≡ₚ omap record_of
                 (map (extract_product_data json_loads urljoin s) urls) /\
    length results <= length urls /\
    (forall r,
       r ∈ results <->
       exists u, u ∈ urls /\
         result (extract_product_data json_loads urljoin s u) = Ok (Some r)) /\
    result (main lib json_loads urljoin list_of_set as_completed s)
    = match urls with
      | [] => Ok None
      | _ => result (export lib results)
      end /\
    (results <> [] ->
     result (main lib json_loads urljoin list_of_set as_completed s)
     = report lib results) /\
    (results = [] ->
     result (main lib json_loads urljoin list_of_set as_completed s)
     = Ok None).
Proof.
  intros Hperm.
  destruct (main_result lib json_loads urljoin list_of_set _ s Hperm)
    as (urls & Hurls & Hmain).
  set (futures := map (extract_product_data json_loads urljoin s) urls) in *.
  exists urls, (omap record_of (as_completed futures)).
  assert (Hp : omap record_of (as_completed futures) ≡ₚ omap record_of futures)
    by (apply omap_Permutation, Hperm).
  split; [done|]. split; [done|]. split.
  { rewrite Hp. etrans; [apply omap_length_le|].
    unfold futures. by rewrite length_map. }
  split; [intros r; by apply completed_records|].
  split; [done|]. rewrite Hmain. subst futures. split.
  - intros Hne. destruct urls as [|u0 rest]; [|by apply export_report].
    assert (as_completed [] = []) as E by (apply Permutation_nil_r, Hperm).
    simpl in Hne. by rewrite E in Hne.
  - intros E. destruct urls as [|u0 rest]; [done|]. by rewrite E.
Qed.

Lemma X11_witness :
  exists urls results,
    result (fetch_sitemap_urls first_occurrences sample_site) = Ok urls /\
    results ≡ₚ omap record_of
                 (map (extract_product_data sample_loads sample_urljoin
                         sample_site) urls) /\
    length results <= length urls /\
    (forall r,
       r ∈ results <->
       exists u, u ∈ urls /\
         result (extract_product_data sample_loads sample_urljoin
                   sample_site u) = Ok (Some r)) /\
    result (main sample_xlsxwriter sample_loads sample_urljoin
              first_occurrences (@rev _) sample_site)
    = match urls with
      | [] => Ok None
      | _ => result (export sample_xlsxwriter results)
      end /\
    (results <> [] ->
     result (main sample_xlsxwriter sample_loads sample_urljoin
               first_occurrences (@rev _) sample_site)
     = report sample_xlsxwriter results) /\
    (results = [] ->
     result (main sample_xlsxwriter sample_loads sample_urljoin
               first_occurrences (@rev _) sample_site)
     = Ok None).
Proof.
  apply X11_main_exports_the_successful_records.
  intros futures. symmetry. apply Permutation_rev.
Defined.

(** X12.  What the main thread prints when the harvest is not empty:
    the lines of the harvester, the line announcing the extraction, one
    progress line for every tenth completed task (whether or not it
    returned a record), then the lines of the report writer: its
    diagnostic when there is no record, else its announcement, followed
    by the closing line when no call of the spreadsheet library
    raised. *)
Theorem X12_main_console
    lib json_loads urljoin list_of_set as_completed (s : session) urls :
  completion_order as_completed ->
  result (fetch_sitemap_urls list_of_set s) = Ok urls -> urls <> [] ->
  forall records,
    records
    = omap record_of
        (as_completed (map (extract_product_data json_loads urljoin s) urls)) ->
  console (main lib json_loads urljoin list_of_set as_completed s)
  = console (fetch_sitemap_urls list_of_set s)
    ++ ["Starting extraction for " +:+ str_of_nat (length urls)
        +:+ " items (Dutch -> English)..."]
    ++ map (progress_line (length urls))
         (List.filter (fun k => k mod 10 =? 0) (seq 1 (length urls)))
    ++ console (export lib records)
  /\ console (export lib records)
     = match records with
       | [] => ["No results extracted. Check if English versions exist."]
       | _ =>
           ("Exporting " +:+ str_of_nat (length records)
            +:+ " items to Excel...")
           :: match result (main lib json_loads urljoin list_of_set
                              as_completed s) with
              | Ok _ => ["Done! Saved to " +:+ OUTPUT_FILE]
              | Raise _ => []
              end
       end.
Proof.
  intros Hperm Hurls Hne records ->. split; [by apply main_console|].
  destruct (main_result lib json_loads urljoin list_of_set _ s Hperm)
    as (urls' & Hurls' & Hmain).
  assert (urls' = urls) as -> by congruence.
  rewrite Hmain. destruct urls as [|u rest]; [done|].
  destruct (omap record_of _) as [|r others] eqn:E; [done|].
  by apply export_console.
Qed.

Lemma X12_witness :
  console (main sample_xlsxwriter sample_loads sample_urljoin
             first_occurrences (@rev _) sample_site)
  = console (fetch_sitemap_urls first_occurrences sample_site)
    ++ ["Starting extraction for "
        +:+ str_of_nat (length [nl_prod1_url; nl_prod2_url])
        +:+ " items (Dutch -> English)..."]
    ++ map (progress_line (length [nl_prod1_url; nl_prod2_url]))
         (List.filter (fun k => k mod 10 =? 0)
            (seq 1 (length [nl_prod1_url; nl_prod2_url])))
    ++ console (export sample_xlsxwriter
                  (omap record_of
                     (rev (map (extract_product_data sample_loads
                                  sample_urljoin sample_site)
                             [nl_prod1_url; nl_prod2_url]))))
  /\ console (export sample_xlsxwriter
                (omap record_of
                   (rev (map (extract_product_data sample_loads
                                sample_urljoin sample_site)
                           [nl_prod1_url; nl_prod2_url]))))
     = ["Exporting 2 items to Excel...";
        "Done! Saved to Duramotion_Full_Catalog.xlsx"].
Proof.
  pose proof (X12_main_console sample_xlsxwriter sample_loads sample_urljoin
                first_occurrences (@rev _) sample_site
                [nl_prod1_url; nl_prod2_url]) as Hrun.
  destruct (Hrun ltac:(intros futures; symmetry; apply Permutation_rev)
                 ltac:(vm_compute; reflexivity) ltac:(discriminate)
                 _ eq_refl) as [Hmain Hexport].
  split; [exact Hmain|]. rewrite Hexport. vm_compute. reflexivity.
Defined.
